(** * OpenCLGA client: worker command dispatch and worker pool

    A shallow embedding of [OpenCLGA/ocl_ga_client.py]: the device
    enumeration [query_devices], the worker's dispatch handler
    [process_data] with the helpers it calls, and the pool manager
    [OpenCLGAClient] with the driving loop of [start_ocl_ga_client].

    Python objects are records, mutation is explicit state passing in a small
    monad that also collects the calls made on external collaborators (logger,
    connection, condition variable, engine, process handle) as a trace, and
    that carries a raised exception together with the state reached so far. *)

From Stdlib Require Import List String Ascii NArith ZArith Bool Arith Lia.
From Stdlib Require Import Strings.Byte.
From Stdlib Require Import Sorting.Sorted.
Import ListNotations.
Set Warnings "-register-all".
Local Open Scope string_scope.
Local Open Scope list_scope.

(** ** Python values and exceptions *)

(** The values a decoded message or an unpickled payload is made of.  Floats
    are carried by their literal: the client never computes on them. *)
Inductive PyVal : Type :=
| PNone
| PBool (b : bool)
| PInt (z : Z)
| PFloat (literal : string)
| PStr (s : string)
| PBytes (bs : list byte)
| PTuple (items : list PyVal)
| PList (items : list PyVal)
| PDict (entries : list (PyVal * PyVal)).

Inductive Exc : Type :=
| UnicodeDecodeError
| SyntaxError
| NameError
| KeyError (key : string)
| TypeError
| ValueError
| IndexError
| AttributeError (attr : string)
| RuntimeError
| AssertionError
| UnpicklingError
| EngineError (what : string).

(** A call either returns a value or raises. *)
Definition result (A : Type) : Type := (Exc + A)%type.
Abbreviation Ok := (@inr Exc _).
Abbreviation Raise := (@inl Exc _).

Definition is_str (s : string) (v : PyVal) : bool :=
  match v with
  | PStr t => String.eqb t s
  | _ => false
  end.

(** [v in [s1, ..., sn]] for a list of string literals: a value that is not
    a string compares unequal to each of them. *)
Definition py_in (v : PyVal) (l : list string) : bool :=
  existsb (fun s => is_str s v) l.

(** [d[k]] for a string literal [k].  Only a dict can be subscripted by a
    string; a dict obtained by evaluation holds each key once. *)
Definition py_getitem (d : PyVal) (k : string) : result PyVal :=
  match d with
  | PDict entries =>
      match find (fun kv => is_str k (fst kv)) entries with
      | Some kv => Ok (snd kv)
      | None => Raise (KeyError k)
      end
  | _ => Raise TypeError
  end.

(** [a, b = v]: unpacking a value into exactly two targets. *)
Definition unpack2 (v : PyVal) : result (PyVal * PyVal) :=
  match v with
  | PTuple [a; b] | PList [a; b] => Ok (a, b)
  | PTuple _ | PList _ => Raise ValueError
  | PStr (String a (String b EmptyString)) =>
      Ok (PStr (String a EmptyString), PStr (String b EmptyString))
  | PStr _ => Raise ValueError
  | PBytes [a; b] => Ok (PInt (Z.of_N (Byte.to_N a)), PInt (Z.of_N (Byte.to_N b)))
  | PBytes _ => Raise ValueError
  | PDict [(a, _); (b, _)] => Ok (a, b)
  | PDict _ => Raise ValueError
  | _ => Raise TypeError
  end.

(** [str(data, 'ASCII')]: every byte must be below 128. *)
Definition is_ascii_byte (b : byte) : bool := (Byte.to_N b <? 128)%N.

Definition str_ascii (data : list byte) : result string :=
  if forallb is_ascii_byte data
  then Ok (string_of_list_byte data)
  else Raise UnicodeDecodeError.

(** A byte that is not ASCII. *)
Definition not_ascii : list byte := [xff].

(** ** Devices, handles and messages *)

Record Device : Type := { dev_name : string }.

(** A platform as [get_devices()] shows it. *)
Definition Platform : Type := list Device.

(** [cl.Context(devices=[device])] *)
Record Context : Type := { ctx_devices : list Device }.

(** The connection object [Client(ip, port, ...)]. *)
Record Client : Type := { srv_ip : string; srv_port : Z }.

(** [threading.Condition()] *)
Inductive Condition : Type := condition.

(** The state of the [multiprocessing.Process] a worker inherits from:
    [is_alive()] holds in [Running] only, [start()] is allowed in
    [Unstarted] only, and the base [terminate()] needs a started process. *)
Inductive ProcState : Type := Unstarted | Running | Finished.

(** The per-generation report handed to the generation callback. *)
Record GenData : Type := { best : PyVal; avg : PyVal; worst : PyVal }.

(** The dicts [send] is called with, before [repr]. *)
Inductive ResultMsg : Type :=
| device_info (device_name : string)
| generation_result (index : PyVal) (res : GenData)
| save_result                       (* "result": None *)
| best_result (best_chromosome : PyVal)   (* "result": repr(best_chromosome) *)
| statistics_result (res : PyVal)
| end_result.

Inductive Level : Type := Verbose | Info | Error.

(** The formatted log lines, by their format string and arguments. *)
Inductive LogMsg : Type :=
| cmd_received (dev : string) (cmd : PyVal)
| only_after_prepared (cmd : PyVal)
| unknown_command (cmd : PyVal)
| oclga_prepared (dev : string)
| oclga_run_with (dev : string) (prob_mutate prob_cross : PyVal)
| generation_line (index bst av wst : PyVal).

(** The methods of the engine class [OpenCLGA]. *)
Inductive EngineMethod : Type :=
| m_init | m_prepare | m_pause | m_stop | m_restore | m_save
| m_get_the_best | m_get_statistics | m_run.

(** What the program does to the world outside its own objects. *)
Inductive Event : Type :=
| Log (lvl : Level) (msg : LogMsg)
| Print (v : PyVal)
| Traceback (e : Exc)                 (* traceback.print_exc() *)
| EngineCall (m : EngineMethod)
| ClientSend (msg : ResultMsg)        (* self.client.send(repr(data)) *)
| ClientShutdown                      (* self.client.shutdown() *)
| NotifyAll                           (* self.notifier.notifyAll() *)
| ThreadStart (payload : PyVal)       (* Thread(target=self.run_ocl_ga, ...).start() *)
| ProcessStart (pidx didx : nat)      (* Process.start() *)
| ProcessTerminate (pidx didx : nat). (* Process.terminate() *)

Definition is_engine_call (ev : Event) : bool :=
  match ev with EngineCall _ => true | _ => false end.

Definition is_shutdown (ev : Event) : bool :=
  match ev with ClientShutdown => true | _ => false end.

(** The messages put on the outbound channel, in emission order. *)
Fixpoint sent (tr : list Event) : list ResultMsg :=
  match tr with
  | [] => []
  | ClientSend m :: tr' => m :: sent tr'
  | _ :: tr' => sent tr'
  end.

Definition is_generation_result (m : ResultMsg) : bool :=
  match m with generation_result _ _ => true | _ => false end.

Definition is_end (m : ResultMsg) : bool :=
  match m with end_result => true | _ => false end.

(** The trace of the callback calls of one run on a connected worker. *)
Definition callback_trace (reports : list (PyVal * GenData)) : list Event :=
  flat_map (fun r =>
              [Log Verbose (generation_line (fst r) (best (snd r)) (avg (snd r)) (worst (snd r)));
               ClientSend (generation_result (fst r) (snd r))]) reports.

Definition as_messages (reports : list (PyVal * GenData)) : list ResultMsg :=
  map (fun r => generation_result (fst r) (snd r)) reports.

(** What the claim of a run says of the messages it sends. *)
Definition generations_then_end (msgs : list ResultMsg) : Prop :=
  exists gens, msgs = gens ++ [end_result] /\ forallb is_generation_result gens = true.

(** ** The monad of the embedding *)

(** A computation on an object of type [S]: the object after it, the
    trace it left, and its value or the exception it raised. *)
Definition M (S A : Type) : Type := S -> S * list Event * result A.

Definition ret {S A} (a : A) : M S A := fun s => (s, [], Ok a).

Definition bind {S A B} (c : M S A) (k : A -> M S B) : M S B :=
  fun s =>
    match c s with
    | (s1, t1, inr a) =>
        match k a s1 with
        | (s2, t2, r) => (s2, t1 ++ t2, r)
        end
    | (s1, t1, inl e) => (s1, t1, inl e)
    end.

Definition raise {S A} (e : Exc) : M S A := fun s => (s, [], Raise e).
Definition emit {S} (ev : Event) : M S unit := fun s => (s, [ev], Ok tt).
Definition get {S} : M S S := fun s => (s, [], Ok s).
Definition modify {S} (f : S -> S) : M S unit := fun s => (f s, [], Ok tt).
Definition lift {S A} (r : result A) : M S A := fun s => (s, [], r).

(** [try: body except: handler] *)
Definition try_except {S A} (body : M S A) (handler : Exc -> M S A) : M S A :=
  fun s =>
    match body s with
    | (s1, t1, inl e) =>
        match handler e s1 with
        | (s2, t2, r) => (s2, t1 ++ t2, r)
        end
    | done => done
    end.

Declare Scope py_scope.
Delimit Scope py_scope with py.
Notation "x <- c ;; k" := (bind c (fun x => k))
  (at level 61, c at next level, right associativity) : py_scope.
Notation "c ;; k" := (bind c (fun _ => k))
  (at level 61, right associativity) : py_scope.
Local Open Scope py_scope.

Definition state_of {S A} (o : S * list Event * result A) : S := fst (fst o).
Definition trace_of {S A} (o : S * list Event * result A) : list Event := snd (fst o).
Definition value_of {S A} (o : S * list Event * result A) : result A := snd o.

(** ** Device enumeration *)

(** The inner loop of [query_devices]:
    [for didx in range(len(devices)): data.append((pidx, didx))] *)
Definition device_pairs (pidx : nat) (devices : Platform) : list (nat * nat) :=
  map (fun didx => (pidx, didx)) (seq 0 (List.length devices)).

(** The outer loop, from platform index [pidx] on. *)
Fixpoint platform_pairs (pidx : nat) (platforms : list Platform) : list (nat * nat) :=
  match platforms with
  | [] => []
  | devices :: rest => device_pairs pidx devices ++ platform_pairs (S pidx) rest
  end.

(** [query_devices(c_p)], given what [cl.get_platforms()] and each
    [get_devices()] return: the list sent on the pipe.  Line 21 indexes
    [platforms[0]] before the loops and raises on an empty platform list. *)
Definition query_devices (platforms : list Platform) : result (list (nat * nat)) :=
  match platforms with
  | [] => Raise IndexError
  | _ :: _ => Ok (platform_pairs 0 platforms)
  end.


(** ** The engine and the Python runtime, as the client sees them *)

(** The [options] dict the engine is built from: the unpickled payload with
    the worker's context added under ["cl_context"].  The callback stored
    under ["generation_callback"] is the worker's own [send_and_dump_info];
    the engine's calls to it are the reports [ga_run] lists. *)
Record EngineOptions : Type := { user_options : PyVal; cl_context : Context }.

(** The interface of [OpenCLGA] (module [ocl_ga], an external collaborator),
    over the engine objects [E].  A method mutates the engine and returns or
    raises; [ga_run] also lists, in call order, the arguments of the calls to
    the generation callback it made before it returned or raised. *)
Class OpenCLGA (E : Type) : Type := {
  ga_init : EngineOptions -> result E;
  ga_prepare : E -> E * result unit;
  ga_pause : E -> E * result unit;
  ga_stop : E -> E * result unit;
  ga_restore : E -> PyVal -> E * result unit;
  ga_save : E -> PyVal -> E * result unit;
  ga_get_the_best : E -> E * result (PyVal * PyVal * PyVal);
  ga_get_statistics : E -> E * result PyVal;
  ga_run : E -> PyVal -> PyVal -> list (PyVal * GenData) * (E * result unit)
}.

(** The builtins [eval] and [pickle.loads], on messages whose evaluation
    has no effect on the worker. *)
Class PyRuntime : Type := {
  py_eval : string -> result PyVal;
  pickle_loads : PyVal -> result PyVal
}.

(** ** The worker *)

Section Worker.

Context {E : Type} {engine : OpenCLGA E} {runtime : PyRuntime}.

(** The attributes of an [OpenCLGAWorker] object.  [device] and [context]
    are set by [create_context], [ocl_ga_thread] by the [run] command;
    [process] is the state of the inherited [Process].  The engine and the
    handles are objects without [__bool__] or [__len__]: they are true in a
    condition, [None] is false. *)
Record OpenCLGAWorker : Type := {
  alive : bool;
  platform_index : nat;
  device_index : nat;
  ip : string;
  port : Z;
  client : option Client;
  notifier : option Condition;
  ocl_ga : option E;
  device : option Device;
  context : option Context;
  ocl_ga_thread : option PyVal;
  process : ProcState
}.

(** [OpenCLGAWorker.__init__] *)
Definition new_worker (pidx didx : nat) (ip_ : string) (port_ : Z) : OpenCLGAWorker :=
  {| alive := true; platform_index := pidx; device_index := didx;
     ip := ip_; port := port_;
     client := None; notifier := None; ocl_ga := None;
     device := None; context := None; ocl_ga_thread := None;
     process := Unstarted |}.

Definition set_alive (b : bool) (w : OpenCLGAWorker) : OpenCLGAWorker :=
  {| alive := b; platform_index := platform_index w; device_index := device_index w;
     ip := ip w; port := port w; client := client w; notifier := notifier w;
     ocl_ga := ocl_ga w; device := device w; context := context w;
     ocl_ga_thread := ocl_ga_thread w; process := process w |}.

Definition set_client (c : option Client) (w : OpenCLGAWorker) : OpenCLGAWorker :=
  {| alive := alive w; platform_index := platform_index w; device_index := device_index w;
     ip := ip w; port := port w; client := c; notifier := notifier w;
     ocl_ga := ocl_ga w; device := device w; context := context w;
     ocl_ga_thread := ocl_ga_thread w; process := process w |}.

Definition set_notifier (n : option Condition) (w : OpenCLGAWorker) : OpenCLGAWorker :=
  {| alive := alive w; platform_index := platform_index w; device_index := device_index w;
     ip := ip w; port := port w; client := client w; notifier := n;
     ocl_ga := ocl_ga w; device := device w; context := context w;
     ocl_ga_thread := ocl_ga_thread w; process := process w |}.

Definition set_ocl_ga (e : option E) (w : OpenCLGAWorker) : OpenCLGAWorker :=
  {| alive := alive w; platform_index := platform_index w; device_index := device_index w;
     ip := ip w; port := port w; client := client w; notifier := notifier w;
     ocl_ga := e; device := device w; context := context w;
     ocl_ga_thread := ocl_ga_thread w; process := process w |}.

Definition set_ocl_ga_thread (t : option PyVal) (w : OpenCLGAWorker) : OpenCLGAWorker :=
  {| alive := alive w; platform_index := platform_index w; device_index := device_index w;
     ip := ip w; port := port w; client := client w; notifier := notifier w;
     ocl_ga := ocl_ga w; device := device w; context := context w;
     ocl_ga_thread := t; process := process w |}.

Definition set_process (p : ProcState) (w : OpenCLGAWorker) : OpenCLGAWorker :=
  {| alive := alive w; platform_index := platform_index w; device_index := device_index w;
     ip := ip w; port := port w; client := client w; notifier := notifier w;
     ocl_ga := ocl_ga w; device := device w; context := context w;
     ocl_ga_thread := ocl_ga_thread w; process := p |}.

Definition W (A : Type) : Type := M OpenCLGAWorker A.

(** The truth value of an attribute that holds an object or [None]. *)
Definition truthy {A} (o : option A) : bool :=
  match o with
  | Some _ => true
  | None => false
  end.

(** Reading an attribute that holds an object; using [None] as one raises. *)
Definition attr {A} (f : OpenCLGAWorker -> option A) (name : string) : W A :=
  w <- get ;;
  match f w with
  | Some a => ret a
  | None => raise (AttributeError name)
  end.

(** [self.device.name] *)
Definition device_name_of_self : W string :=
  d <- attr device "name" ;; ret (dev_name d).

(** [send]: [if self.client: self.client.send(repr(data))] *)
Definition send (msg : ResultMsg) : W unit :=
  w <- get ;;
  if truthy (client w) then emit (ClientSend msg) else ret tt.

(** A call [self.ocl_ga.<method>(...)]: the engine object is mutated in
    place, also when the method raises. *)
Definition call_engine {A} (m : EngineMethod) (attr_name : string)
    (method : E -> E * result A) : W A :=
  e <- attr ocl_ga attr_name ;;
  emit (EngineCall m) ;;
  modify (set_ocl_ga (Some (fst (method e)))) ;;
  lift (snd (method e)).

(** [send_and_dump_info(index, data)], the generation callback *)
Definition send_and_dump_info (index : PyVal) (data : GenData) : W unit :=
  emit (Log Verbose (generation_line index (best data) (avg data) (worst data))) ;;
  send (generation_result index data).

(** The callback calls made by a run of the engine, in order. *)
Fixpoint generation_callbacks (reports : list (PyVal * GenData)) : W unit :=
  match reports with
  | [] => ret tt
  | (index, data) :: rest =>
      send_and_dump_info index data ;; generation_callbacks rest
  end.

(** [run_ocl_ga(probs)], the body of the thread the [run] command starts *)
Definition run_ocl_ga (probs : PyVal) : W unit :=
  pp <- lift (unpack2 probs) ;;
  name <- device_name_of_self ;;
  emit (Log Info (oclga_run_with name (fst pp) (snd pp))) ;;
  e <- attr ocl_ga "run" ;;
  emit (EngineCall m_run) ;;
  generation_callbacks (fst (ga_run e (fst pp) (snd pp))) ;;
  modify (set_ocl_ga (Some (fst (snd (ga_run e (fst pp) (snd pp)))))) ;;
  lift (snd (snd (ga_run e (fst pp) (snd pp)))) ;;
  send end_result.

(** [create_ocl_ga(options)] *)
Definition create_ocl_ga (options : PyVal) : W unit :=
  sample <- lift (py_getitem options "sample_chromosome") ;;
  emit (Print sample) ;;
  w <- get ;;
  ctx <- match context w with
         | Some c => ret c
         | None => raise (AttributeError "context")
         end ;;
  emit (EngineCall m_init) ;;
  e <- lift (ga_init {| user_options := options; cl_context := ctx |}) ;;
  modify (set_ocl_ga (Some e)) ;;
  call_engine m_prepare "prepare" ga_prepare ;;
  name <- device_name_of_self ;;
  emit (Log Info (oclga_prepared name)).

(** The commands that need the engine (line 118). *)
Definition engine_commands : list string :=
  ["pause"; "stop"; "restore"; "best"; "save"; "statistics"].

(** The [if]/[elif] chain inside the [try] of [process_data]. *)
Definition dispatch (cmd payload : PyVal) : W unit :=
  if is_str "prepare" cmd then
    options <- lift (pickle_loads payload) ;;
    create_ocl_ga options
  else if is_str "pause" cmd then
    call_engine m_pause "pause" ga_pause
  else if is_str "stop" cmd then
    call_engine m_stop "stop" ga_stop
  else if is_str "restore" cmd then
    call_engine m_restore "restore" (fun e => ga_restore e payload)
  else if is_str "save" cmd then
    call_engine m_save "save" (fun e => ga_save e payload) ;;
    send save_result
  else if is_str "best" cmd then
    triple <- call_engine m_get_the_best "get_the_best" ga_get_the_best ;;
    send (best_result (fst (fst triple)))
  else if is_str "statistics" cmd then
    stats <- call_engine m_get_statistics "get_statistics" ga_get_statistics ;;
    send (statistics_result stats)
  else if is_str "run" cmd then
    modify (set_ocl_ga_thread (Some payload)) ;;
    emit (ThreadStart payload)
  else if is_str "exit" cmd then
    attr client "shutdown" ;;
    emit ClientShutdown ;;
    (* [with self.notifier:] on [None] raises as well *)
    attr notifier "__enter__" ;;
    emit NotifyAll ;;
    modify (set_alive false)
  else
    emit (Log Error (unknown_command cmd)).

(** Lines 112 to 115: the message is decoded and its two keys are read. *)
Definition decode (data : list byte) : result (PyVal * PyVal) :=
  match str_ascii data with
  | inl e => Raise e
  | inr msg =>
      match py_eval msg with
      | inl e => Raise e
      | inr dict_msg =>
          match py_getitem dict_msg "command" with
          | inl e => Raise e
          | inr cmd =>
              match py_getitem dict_msg "data" with
              | inl e => Raise e
              | inr payload => Ok (cmd, payload)
              end
          end
      end
  end.

(** [process_data(data)], the callback the connection calls with each
    message.  An exception in the value means it left [process_data]. *)
Definition process_data (data : list byte) : W unit :=
  cp <- lift (decode data) ;;
  name <- device_name_of_self ;;
  emit (Log Verbose (cmd_received name (fst cp))) ;;
  w <- get ;;
  if py_in (fst cp) engine_commands && negb (truthy (ocl_ga w)) then
    emit (Log Error (only_after_prepared (fst cp)))
  else
    try_except (dispatch (fst cp) (snd cp)) (fun e => emit (Traceback e)).

(** [terminate()].  [notifyAll] is called here without the condition's lock
    held, which [threading.Condition] refuses; the inherited
    [Process.terminate] needs a process that was started. *)
Definition terminate : W unit :=
  w <- get ;;
  (if truthy (client w) then emit ClientShutdown else ret tt) ;;
  (if truthy (notifier w) then raise RuntimeError else ret tt) ;;
  modify (set_client None) ;;
  modify (set_alive false) ;;
  modify (set_notifier None) ;;
  w' <- get ;;
  match process w' with
  | Unstarted => raise (AttributeError "terminate")
  | _ =>
      emit (ProcessTerminate (platform_index w') (device_index w')) ;;
      modify (set_process Finished)
  end.

(** [Process.start()] *)
Definition start : W unit :=
  w <- get ;;
  match process w with
  | Unstarted =>
      emit (ProcessStart (platform_index w) (device_index w)) ;;
      modify (set_process Running)
  | _ => raise AssertionError
  end.

(** [Process.is_alive()] *)
Definition worker_is_alive (w : OpenCLGAWorker) : bool :=
  match process w with
  | Running => true
  | _ => false
  end.

End Worker.

Arguments OpenCLGAWorker E : clear implicits.

(** ** The pool *)

Section Pool.

Context {E : Type}.

(** The attributes of an [OpenCLGAClient] object; [alive] is first assigned
    by [shutdown]. *)
Record OpenCLGAClient : Type := {
  workerProcesses : list (OpenCLGAWorker E);
  pool_alive : option bool
}.

Definition P (A : Type) : Type := M OpenCLGAClient A.

Definition set_workers (ws : list (OpenCLGAWorker E)) (p : OpenCLGAClient) : OpenCLGAClient :=
  {| workerProcesses := ws; pool_alive := pool_alive p |}.

Definition set_pool_alive (b : bool) (p : OpenCLGAClient) : OpenCLGAClient :=
  {| workerProcesses := workerProcesses p; pool_alive := Some b |}.

(** The pool before the first worker is added. *)
Definition empty_pool : OpenCLGAClient :=
  {| workerProcesses := []; pool_alive := None |}.

(** A worker object as the pool holds it: its process was started, and the
    attributes the child sets in [run] are unset. *)
Definition started_handle (w : OpenCLGAWorker E) : Prop :=
  process w <> Unstarted /\ notifier w = None.

(** The worker left by [terminate]. *)
Definition terminated (w : OpenCLGAWorker E) : OpenCLGAWorker E :=
  set_process Finished (set_notifier None (set_alive false (set_client None w))).

(** A [for worker in self.__workerProcesses: body] loop whose body acts on
    the worker: the workers are objects of the list, so what the body did to
    them stays when a later one raises, and the loop stops there. *)
Fixpoint for_each_worker (body : M (OpenCLGAWorker E) unit)
    (ws : list (OpenCLGAWorker E)) : list (OpenCLGAWorker E) * list Event * result unit :=
  match ws with
  | [] => ([], [], Ok tt)
  | w :: rest =>
      match body w with
      | (w', t, inr _) =>
          match for_each_worker body rest with
          | (rest', t', r) => (w' :: rest', t ++ t', r)
          end
      | (w', t, inl e) => (w' :: rest, t, inl e)
      end
  end.

Definition over_workers (body : M (OpenCLGAWorker E) unit) : P unit :=
  fun p =>
    match for_each_worker body (workerProcesses p) with
    | (ws, t, r) => (set_workers ws p, t, r)
    end.

(** [__fork_process]: the loop body of [create_workers_for_devices] *)
Definition fork_process (pidx didx : nat) (ip_ : string) (port_ : Z) : P unit :=
  modify (fun p => set_workers (workerProcesses p ++ [new_worker pidx didx ip_ port_]) p).

Fixpoint fork_processes (device_list : list (nat * nat)) (ip_ : string) (port_ : Z) : P unit :=
  match device_list with
  | [] => ret tt
  | dev :: rest => fork_process (fst dev) (snd dev) ip_ port_ ;; fork_processes rest ip_ port_
  end.

(** What [p_p.recv()] gives in [create_workers_for_devices]: the list the
    child running [query_devices] sent.  When the child raised it sent
    nothing, and [recv] does not return. *)
Definition recv_device_list (platforms : list Platform) : option (list (nat * nat)) :=
  match query_devices platforms with
  | inr data => Some data
  | inl _ => None
  end.

(** [start_workers()] *)
Definition start_workers : P unit := over_workers start.

(** [stop_workers()] *)
Definition stop_workers : P unit :=
  over_workers (emit (Print (PStr "process is alive")) ;; terminate) ;;
  modify (set_workers []).

(** [shutdown()] *)
Definition shutdown : P unit :=
  stop_workers ;; modify (set_pool_alive false).

(** [is_alive()]: the loop [alive = alive and worker.is_alive()] *)
Definition is_alive (p : OpenCLGAClient) : bool :=
  fold_left (fun alive_ worker => alive_ && worker_is_alive worker) (workerProcesses p) true.

(** [create_workers_for_devices(ip, port)]: the enumeration runs in a process
    of its own, and one worker is appended per pair received.  [None] when
    the device list never arrives. *)
Definition create_workers_for_devices (platforms : list Platform) (ip_ : string) (port_ : Z)
  : option (P unit) :=
  match recv_device_list platforms with
  | None => None
  | Some device_list => Some (fork_processes device_list ip_ port_)
  end.

(** [OpenCLGAClient.__init__] *)
Definition new_client (platforms : list Platform) (ip_ : string) (port_ : Z)
  : option (OpenCLGAClient * list Event * result unit) :=
  match create_workers_for_devices platforms ip_ port_ with
  | None => None
  | Some create_workers =>
      Some ((create_workers ;; start_workers) empty_pool)
  end.

(** *** The driving loop of [start_ocl_ga_client] *)

(** What happens outside the pool between two polls. *)
Inductive Tick : Type :=
| Quiet
| WorkerExits (i : nat)       (* the process of the [i]-th worker ends *)
| KeyboardInterrupt.

Fixpoint exit_nth (i : nat) (ws : list (OpenCLGAWorker E)) : list (OpenCLGAWorker E) :=
  match ws, i with
  | [], _ => []
  | w :: rest, O =>
      (match process w with Running => set_process Finished w | _ => w end) :: rest
  | w :: rest, S j => w :: exit_nth j rest
  end.

Inductive Driver : Type :=
| SaidBye (polls : nat) (p : OpenCLGAClient)     (* the loop broke: "Bye Bye" was logged *)
| Interrupted (polls : nat) (o : OpenCLGAClient * list Event * result unit)
                                              (* [shutdown()] ran in the handler *)
| StillPolling (p : OpenCLGAClient).             (* [fuel] polls found the pool alive *)

(** [fuel] rounds of the [while True] loop, the [k]-th round seeing
    [world k] first. *)
Fixpoint poll (fuel : nat) (world : nat -> Tick) (k : nat) (p : OpenCLGAClient) : Driver :=
  match fuel with
  | O => StillPolling p
  | S fuel' =>
      match world k with
      | KeyboardInterrupt => Interrupted k (shutdown p)
      | tick =>
          let p' := match tick with
                    | WorkerExits i => set_workers (exit_nth i (workerProcesses p)) p
                    | _ => p
                    end in
          if is_alive p' then poll fuel' world (S k) p' else SaidBye k p'
      end
  end.

(** [start_ocl_ga_client]: the pool is built, then polled.  [None] when
    the constructor does not return or raises. *)
Definition start_ocl_ga_client (platforms : list Platform) (server : string) (port_ : Z)
    (world : nat -> Tick) (fuel : nat) : option Driver :=
  match new_client platforms server port_ with
  | Some (p, _, inr _) => Some (poll fuel world 0 p)
  | _ => None
  end.

End Pool.

Arguments OpenCLGAClient E : clear implicits.

(** ** The worker's main *)

Section Main.

Context {E : Type}.

(** What [Client(ip, port, ...)] does: it returns the connection, or raises
    [ConnectionRefusedError], or raises something else. *)
Inductive Connect : Type :=
| Connected (c : Client)
| Refused
| ConnectFailed (e : Exc).

(** The machine a worker process runs on: the platforms with their devices
    as [cl.get_platforms()] and [get_devices()] show them, the constructor
    [cl.Context], and the server side of [Client]. *)
Record Host : Type := {
  cl_platforms : list Platform;
  cl_Context : list Device -> result Context;
  connect : string -> Z -> Connect
}.

(** [l[i]] for an index that is not negative. *)
Definition py_index {A} (l : list A) (i : nat) : result A :=
  match nth_error l i with
  | Some a => Ok a
  | None => Raise IndexError
  end.

Definition set_device (d : option Device) (w : OpenCLGAWorker E) : OpenCLGAWorker E :=
  {| alive := alive w; platform_index := platform_index w; device_index := device_index w;
     ip := ip w; port := port w; client := client w; notifier := notifier w;
     ocl_ga := ocl_ga w; device := d; context := context w;
     ocl_ga_thread := ocl_ga_thread w; process := process w |}.

Definition set_context (c : option Context) (w : OpenCLGAWorker E) : OpenCLGAWorker E :=
  {| alive := alive w; platform_index := platform_index w; device_index := device_index w;
     ip := ip w; port := port w; client := client w; notifier := notifier w;
     ocl_ga := ocl_ga w; device := device w; context := c;
     ocl_ga_thread := ocl_ga_thread w; process := process w |}.

(** [create_context()] *)
Definition create_context (h : Host) : M (OpenCLGAWorker E) Context :=
  w <- get ;;
  platform <- lift (py_index (cl_platforms h) (platform_index w)) ;;
  dev <- lift (py_index platform (device_index w)) ;;
  modify (set_device (Some dev)) ;;
  ctx <- lift (cl_Context h [dev]) ;;
  modify (set_context (Some ctx)) ;;
  ret ctx.

(** The log lines of [run], by their format string and arguments. *)
Inductive MainLogMsg : Type :=
| worker_created (dev : string)
| worker_connects (dev ip_ : string) (port_ : Z)
| create_context_failed
| connection_refused
| worker_waits (dev : string).

(** What [run] does to the world: its own calls, and those of the methods
    of the worker it calls. *)
Inductive MainEvent : Type :=
| RandomSeed                               (* random.seed() *)
| MainLog (lvl : Level) (msg : MainLogMsg)
| Handler (ev : Event)
| ConditionWait.                           (* self.notifier.wait() *)

(** How far [run] got: it returned from one of its two handlers, an
    exception left it, or it waits on the condition for the [exit] command. *)
Inductive RunEnd : Type :=
| ContextFailed
| ConnectionRefused
| Crashed (e : Exc)
| Waiting.

(** [run()], the main of the worker process, up to the wait on the
    condition.  The first [try] has a bare [except]; the second catches
    [ConnectionRefusedError] only. *)
Definition run (h : Host) (w : OpenCLGAWorker E)
  : OpenCLGAWorker E * list MainEvent * RunEnd :=
  match create_context h w with
  | (w1, t1, inl _) =>
      (w1, RandomSeed :: map Handler t1 ++ [MainLog Error create_context_failed],
       ContextFailed)
  | (w1, t1, inr _) =>
      match device w1 with
      | None =>
          (w1, RandomSeed :: map Handler t1 ++ [MainLog Error create_context_failed],
           ContextFailed)
      | Some d =>
          let created :=
            RandomSeed :: map Handler t1 ++
            [MainLog Info (worker_created (dev_name d));
             MainLog Info (worker_connects (dev_name d) (ip w1) (port w1))] in
          match connect h (ip w1) (port w1) with
          | Refused =>
              (set_client None w1, created ++ [MainLog Error connection_refused],
               ConnectionRefused)
          | ConnectFailed e => (w1, created, Crashed e)
          | Connected c =>
              match send (device_info (dev_name d)) (set_client (Some c) w1) with
              | (w2, t2, _) =>
                  (set_notifier (Some condition) w2,
                   created ++ map Handler t2 ++
                   [MainLog Info (worker_waits (dev_name d)); ConditionWait],
                   Waiting)
              end
          end
      end
  end.

(** The messages [run] put on the outbound channel. *)
Definition main_sent (tr : list MainEvent) : list ResultMsg :=
  sent (flat_map (fun ev => match ev with Handler e => [e] | _ => [] end) tr).

(** The worker the pool starts for the pair [(pidx, didx)]. *)
Definition started_worker (pidx didx : nat) (ip_ : string) (port_ : Z) : OpenCLGAWorker E :=
  set_process Running (new_worker pidx didx ip_ port_).

(** The attributes the dispatch handler leaves alone. *)
Definition keeps_handles (w w' : OpenCLGAWorker E) : Prop :=
  client w' = client w /\ notifier w' = notifier w /\
  device w' = device w /\ context w' = context w /\
  process w' = process w /\
  platform_index w' = platform_index w /\ device_index w' = device_index w /\
  ip w' = ip w /\ port w' = port w.

(** The command names of the [if]/[elif] chain. *)
Definition known_commands : list string :=
  ["prepare"; "pause"; "stop"; "restore"; "save"; "best"; "statistics"; "run"; "exit"].

(** The trace [stop_workers] leaves for one worker. *)
Definition stop_trace (w : OpenCLGAWorker E) : list Event :=
  Print (PStr "process is alive")
    :: (if truthy (client w) then [ClientShutdown] else [])
    ++ [ProcessTerminate (platform_index w) (device_index w)].

(** The worker [run] leaves waiting for commands. *)
Definition waiting_worker (w : OpenCLGAWorker E) (d : Device) (ctx : Context) (c : Client)
  : OpenCLGAWorker E :=
  set_notifier (Some condition)
    (set_client (Some c) (set_context (Some ctx) (set_device (Some d) w))).

(** A computation on the worker that leaves the handles alone. *)
Definition handles_kept {A} (c : M (OpenCLGAWorker E) A) : Prop :=
  forall w, keeps_handles w (state_of (c w)).

(** A computation that, on a worker without connection, sends nothing and
    makes no connection. *)
Definition silent_offline {A} (c : M (OpenCLGAWorker E) A) : Prop :=
  forall w, client w = None ->
    client (state_of (c w)) = None /\ sent (trace_of (c w)) = [].

End Main.

(** ** A scripted engine and runtime

    A deterministic stand-in for the engine, driven by its options, and a
    runtime that knows a handful of messages.  They give the general
    theorems below concrete workers to run on. *)

Module Stub.

Definition has_key (k : string) (d : PyVal) : bool :=
  match py_getitem d k with
  | inr _ => true
  | inl _ => false
  end.

Record GA : Type := { options_of : PyVal; prepared : bool; paused : bool }.

Definition report (i : nat) : PyVal * GenData :=
  (PInt (Z.of_nat i), {| best := PInt 1; avg := PInt 2; worst := PInt 3 |}).

(** The number of generations the options ask for. *)
Definition generations (opts : PyVal) : nat :=
  match py_getitem opts "generations" with
  | inr (PInt n) => Z.to_nat n
  | _ => 0
  end.

#[global] Instance engine : OpenCLGA GA := {|
  ga_init opts :=
    if has_key "bad_options" (user_options opts)
    then Raise (EngineError "options")
    else Ok {| options_of := user_options opts; prepared := false; paused := false |};
  ga_prepare e :=
    if has_key "bad_kernel" (options_of e)
    then (e, Raise (EngineError "kernel"))
    else ({| options_of := options_of e; prepared := true; paused := paused e |}, Ok tt);
  ga_pause e := ({| options_of := options_of e; prepared := prepared e; paused := true |}, Ok tt);
  ga_stop e := (e, Ok tt);
  ga_restore e _ := (e, Ok tt);
  ga_save e _ := (e, Ok tt);
  ga_get_the_best e := (e, Ok (PList [PInt 0; PInt 1; PInt 2], PInt 7, PNone));
  ga_get_statistics e := (e, Ok (PDict []));
  ga_run e _ _ :=
    (map report (seq 0 (generations (options_of e))),
     (e, if has_key "run_fails" (options_of e)
         then Raise (EngineError "run") else Ok tt))
|}.

Definition cmd_msg (cmd : string) (payload : PyVal) : PyVal :=
  PDict [(PStr "command", PStr cmd); (PStr "data", payload)].

Definition probs : PyVal := PTuple [PFloat "0.05"; PFloat "0.9"].

(** The messages the runtime can evaluate. *)
Definition known_messages : list (string * PyVal) :=
  [ ("{'command': 'pause', 'data': None}", cmd_msg "pause" PNone);
    ("{'command': 'best', 'data': None}", cmd_msg "best" PNone);
    ("{'command': 'exit', 'data': None}", cmd_msg "exit" PNone);
    ("{'command': 'run', 'data': (0.05, 0.9)}", cmd_msg "run" probs);
    ("{'command': 'prepare', 'data': b'good'}",
       cmd_msg "prepare" (PBytes (list_byte_of_string "good")));
    ("{'command': 'prepare', 'data': b'run_fails'}",
       cmd_msg "prepare" (PBytes (list_byte_of_string "run_fails")));
    ("{'command': 'prepare', 'data': b'bad_kernel'}",
       cmd_msg "prepare" (PBytes (list_byte_of_string "bad_kernel")));
    ("{'command': 'prepare', 'data': b'bad_options'}",
       cmd_msg "prepare" (PBytes (list_byte_of_string "bad_options")));
    ("{'command': 'pause'}", PDict [(PStr "command", PStr "pause")]);
    ("42", PInt 42) ].

Definition sample : PyVal * PyVal := (PStr "sample_chromosome", PList [PInt 0; PInt 1; PInt 2]).

(** The pickles the runtime can load. *)
Definition known_pickles : list (string * PyVal) :=
  [ ("good", PDict [sample; (PStr "generations", PInt 3)]);
    ("run_fails", PDict [sample; (PStr "generations", PInt 1); (PStr "run_fails", PBool true)]);
    ("bad_kernel", PDict [sample; (PStr "bad_kernel", PBool true)]);
    ("bad_options", PDict [sample; (PStr "bad_options", PBool true)]) ].

Definition lookup (table : list (string * PyVal)) (s : string) : option PyVal :=
  match find (fun kv => String.eqb (fst kv) s) table with
  | Some kv => Some (snd kv)
  | None => None
  end.

#[global] Instance runtime : PyRuntime := {|
  py_eval msg :=
    match lookup known_messages msg with
    | Some v => Ok v
    | None => Raise SyntaxError
    end;
  pickle_loads payload :=
    match payload with
    | PBytes bs =>
        match lookup known_pickles (string_of_list_byte bs) with
        | Some v => Ok v
        | None => Raise UnpicklingError
        end
    | _ => Raise TypeError
    end
|}.

Definition gpu : Device := {| dev_name := "gpu0" |}.

(** A worker of the child process once [run] waits for commands: context
    acquired, connected, no engine yet. *)
Definition idle : OpenCLGAWorker GA :=
  {| alive := true; platform_index := 0; device_index := 0;
     ip := "127.0.0.1"; port := 12345%Z;
     client := Some {| srv_ip := "127.0.0.1"; srv_port := 12345%Z |};
     notifier := Some condition; ocl_ga := None;
     device := Some gpu; context := Some {| ctx_devices := [gpu] |};
     ocl_ga_thread := None; process := Running |}.

Definition wire (msg : string) : list byte := list_byte_of_string msg.

Definition pause_msg : list byte := wire "{'command': 'pause', 'data': None}".
Definition exit_msg : list byte := wire "{'command': 'exit', 'data': None}".
Definition run_msg : list byte := wire "{'command': 'run', 'data': (0.05, 0.9)}".
Definition prepare_msg (name : string) : list byte :=
  wire ("{'command': 'prepare', 'data': b'" ++ name ++ "'}").

(** The idle worker after the [prepare] command with the pickle [name]. *)
Definition after_prepare (name : string) : OpenCLGAWorker GA :=
  state_of (process_data (prepare_msg name) idle).

(** The engine the idle worker holds after a good [prepare] with the
    pickle [opts]. *)
Definition prepared_engine (opts : PyVal) : GA :=
  {| options_of := opts; prepared := true; paused := false |}.

Definition good_options : PyVal :=
  PDict [sample; (PStr "generations", PInt 3)].

Definition failing_options : PyVal :=
  PDict [sample; (PStr "generations", PInt 1); (PStr "run_fails", PBool true)].

Definition connection : Client := {| srv_ip := "127.0.0.1"; srv_port := 12345%Z |}.

(** Two platforms, of two devices and of one. *)
Definition two_platforms : list Platform := [[gpu; gpu]; [gpu]].

(** One platform without devices. *)
Definition no_device : list Platform := [[]].

(** The pool the constructor builds on [two_platforms]: three workers,
    all started. *)
Definition started_pool : OpenCLGAClient GA :=
  match new_client two_platforms "127.0.0.1" 12345%Z with
  | Some o => state_of o
  | None => empty_pool
  end.

(** A message without the ["data"] key. *)
Definition keyless_msg : list byte := wire "{'command': 'pause'}".

(** A host with the devices of [two_platforms], on which a context can
    always be made, and where only the local server listens. *)
Definition host : Host :=
  {| cl_platforms := two_platforms;
     cl_Context devs := Ok {| ctx_devices := devs |};
     connect ip_ port_ :=
       if String.eqb ip_ "127.0.0.1"
       then Connected {| srv_ip := ip_; srv_port := port_ |}
       else Refused |}.

Definition best_msg : list byte := wire "{'command': 'best', 'data': None}".

(** A runtime that knows more messages and pickles than [runtime]. *)
Definition more_messages : list (string * PyVal) :=
  [ ("{'command': 'resume', 'data': None}", cmd_msg "resume" PNone);
    ("{'command': 7, 'data': None}", PDict [(PStr "command", PInt 7); (PStr "data", PNone)]);
    ("{'command': 'save', 'data': 'state.bin'}", cmd_msg "save" (PStr "state.bin"));
    ("{'command': 'statistics', 'data': None}", cmd_msg "statistics" PNone);
    ("{'command': 'stop', 'data': None}", cmd_msg "stop" PNone);
    ("{'command': 'restore', 'data': 'state.bin'}", cmd_msg "restore" (PStr "state.bin"));
    ("{'command': 'prepare', 'data': b'garbage'}",
       cmd_msg "prepare" (PBytes (list_byte_of_string "garbage")));
    ("{'command': 'prepare', 'data': b'no_sample'}",
       cmd_msg "prepare" (PBytes (list_byte_of_string "no_sample")));
    ("{'command': 'prepare', 'data': 'text'}", cmd_msg "prepare" (PStr "text")) ].

Definition more_pickles : list (string * PyVal) :=
  [ ("no_sample", PDict [(PStr "generations", PInt 3)]) ].

Definition wide_runtime : PyRuntime := {|
  py_eval msg :=
    match lookup more_messages msg with
    | Some v => Ok v
    | None => py_eval (PyRuntime := runtime) msg
    end;
  pickle_loads payload :=
    match payload with
    | PBytes bs =>
        match lookup more_pickles (string_of_list_byte bs) with
        | Some v => Ok v
        | None => pickle_loads (PyRuntime := runtime) payload
        end
    | _ => Raise TypeError
    end
|}.

(** [process_data] under [wide_runtime]. *)
Definition receive (msg : string) (w : OpenCLGAWorker GA) :=
  process_data (runtime := wide_runtime) (wire msg) w.

(** The idle worker after a good [prepare]. *)
Definition ready : OpenCLGAWorker GA := after_prepare "good".

(** The second worker's process ends before the third poll. *)
Definition second_exits_in_round_two (k : nat) : Tick :=
  match k with
  | 2 => WorkerExits 1
  | _ => Quiet
  end.

(** The user interrupts the driver in its third round. *)
Definition interrupt_in_round_two (k : nat) : Tick :=
  match k with
  | 2 => KeyboardInterrupt
  | _ => Quiet
  end.

End Stub.

(** ** Properties of the dispatch handler *)

Section WorkerFacts.

Context {E : Type} {engine : OpenCLGA E} {runtime : PyRuntime}.

Lemma py_in_engine_commands (cmd : string) :
  In cmd engine_commands -> py_in (PStr cmd) engine_commands = true.
Proof.
  unfold engine_commands; simpl.
  intros [H | [H | [H | [H | [H | [H | []]]]]]]; subst cmd; reflexivity.
Qed.

(** The guard of line 118 on a worker without engine: the state is kept,
    and all that happens is the two log lines (or, on a worker that has no
    device yet, the failure to format the first). *)
Lemma guard_rejects (w : OpenCLGAWorker E) (data : list byte) (cmd : string) (payload : PyVal) :
  decode data = Ok (PStr cmd, payload) ->
  In cmd engine_commands ->
  ocl_ga w = None ->
  process_data data w =
    match device w with
    | Some d =>
        (w, [Log Verbose (cmd_received (dev_name d) (PStr cmd));
             Log Error (only_after_prepared (PStr cmd))], Ok tt)
    | None => (w, [], Raise (AttributeError "name"))
    end.
Proof.
  intros Hdec Hin Hnone.
  unfold process_data, bind, lift, device_name_of_self, attr, bind, get.
  rewrite Hdec. cbn [fst snd].
  pose proof (py_in_engine_commands cmd Hin) as Hguard.
  destruct (device w) as [d |] eqn:Hd; cbn -[py_in engine_commands].
  - rewrite Hguard, Hnone. reflexivity.
  - reflexivity.
Qed.

(** What the guard of line 118 does hold back.  A command among pause, stop,
    restore, best, save and statistics that reaches a worker whose [ocl_ga] is
    [None] is rejected: the worker is left as it was, no engine method is
    called and nothing is sent; on a worker that runs (its device is set) the
    handler returns after logging the command and the rejection. *)
Theorem engine_command_before_prepare_is_rejected
    (w : OpenCLGAWorker E) (data : list byte) (cmd : string) (payload : PyVal) :
  decode data = Ok (PStr cmd, payload) ->
  In cmd engine_commands ->
  ocl_ga w = None ->
  state_of (process_data data w) = w /\
  filter is_engine_call (trace_of (process_data data w)) = [] /\
  sent (trace_of (process_data data w)) = [] /\
  forall d, device w = Some d ->
    process_data data w =
      (w, [Log Verbose (cmd_received (dev_name d) (PStr cmd));
           Log Error (only_after_prepared (PStr cmd))], Ok tt).
Proof.
  intros Hdec Hin Hnone.
  rewrite (guard_rejects w data cmd payload Hdec Hin Hnone).
  destruct (device w) as [d |]; repeat split; try reflexivity.
  - intros d' Hd'. injection Hd' as <-. reflexivity.
  - intros d' Hd'. discriminate Hd'.
Qed.

(** What fails in lines 112 to 115 leaves [process_data] at once. *)
Lemma decode_failure_escapes (w : OpenCLGAWorker E) (data : list byte) (e : Exc) :
  decode data = Raise e -> process_data data w = (w, [], Raise e).
Proof.
  intros Hdec. unfold process_data, bind, lift. rewrite Hdec. reflexivity.
Qed.

Lemma decode_not_ascii : decode not_ascii = Raise UnicodeDecodeError.
Proof. reflexivity. Qed.

(** C9. The message is decoded and its keys are read before the [try]: when
    any of these steps raises, the exception leaves [process_data] with
    nothing logged, no traceback printed and the worker untouched; and there
    are such messages, whatever the worker. *)
Theorem undecodable_message_escapes :
  (forall (w : OpenCLGAWorker E) (data : list byte) (e : Exc),
      decode data = Raise e ->
      process_data data w = (w, [], Raise e)) /\
  (forall w : OpenCLGAWorker E,
      exists data e, process_data data w = (w, [], Raise e)).
Proof.
  split.
  - intros w data e H. apply decode_failure_escapes, H.
  - intros w. exists not_ascii, UnicodeDecodeError.
    apply decode_failure_escapes, decode_not_ascii.
Qed.

Lemma sent_app (t1 t2 : list Event) : sent (t1 ++ t2) = sent t1 ++ sent t2.
Proof.
  induction t1 as [| ev t1 IH]; [reflexivity |].
  destruct ev; simpl; rewrite IH; reflexivity.
Qed.

Lemma sent_callback_trace (reports : list (PyVal * GenData)) :
  sent (callback_trace reports) = as_messages reports.
Proof.
  induction reports as [| r reports IH]; [reflexivity |].
  simpl. rewrite IH. reflexivity.
Qed.

Lemma send_connected (msg : ResultMsg) (w : OpenCLGAWorker E) (c : Client) :
  client w = Some c -> send msg w = (w, [ClientSend msg], Ok tt).
Proof.
  intros Hc. unfold send, bind, get. cbn. rewrite Hc. reflexivity.
Qed.

Lemma generation_callbacks_connected (reports : list (PyVal * GenData))
    (w : OpenCLGAWorker E) (c : Client) :
  client w = Some c ->
  generation_callbacks reports w = (w, callback_trace reports, Ok tt).
Proof.
  intros Hc. induction reports as [| [index data] reports IH]; [reflexivity |].
  cbn [generation_callbacks]. unfold bind at 1.
  unfold send_and_dump_info. unfold bind at 1. cbn [emit].
  rewrite (send_connected _ w c Hc). cbn [app]. rewrite IH. reflexivity.
Qed.

Lemma as_messages_are_generations (reports : list (PyVal * GenData)) :
  forallb is_generation_result (as_messages reports) = true.
Proof. induction reports as [| r reports IH]; [reflexivity | exact IH]. Qed.

(** The thread body on a connected worker that holds an engine. *)
Lemma run_ocl_ga_trace (w : OpenCLGAWorker E) (e : E) (c : Client) (d : Device) (m cr : PyVal) :
  ocl_ga w = Some e -> client w = Some c -> device w = Some d ->
  run_ocl_ga (PTuple [m; cr]) w =
    (set_ocl_ga (Some (fst (snd (ga_run e m cr)))) w,
     [Log Info (oclga_run_with (dev_name d) m cr); EngineCall m_run]
       ++ callback_trace (fst (ga_run e m cr))
       ++ match snd (snd (ga_run e m cr)) with
          | inr _ => [ClientSend end_result]
          | inl _ => []
          end,
     match snd (snd (ga_run e m cr)) with
     | inr _ => Ok tt
     | inl x => Raise x
     end).
Proof.
  intros He Hc Hd.
  unfold run_ocl_ga, device_name_of_self, attr.
  unfold bind, lift, get, emit, modify, ret, raise.
  cbn [unpack2 fst snd]. rewrite Hd, He. cbn [fst snd dev_name app].
  rewrite (generation_callbacks_connected _ w c Hc).
  destruct (ga_run e m cr) as [reports [e' [x | []]]]; cbn [fst snd].
  - reflexivity.
  - rewrite (send_connected end_result (set_ocl_ga (Some e') w) c Hc). reflexivity.
Qed.

Lemma sent_run_trace (name : string) (m cr : PyVal)
    (reports : list (PyVal * GenData)) (rest : list Event) :
  sent ([Log Info (oclga_run_with name m cr); EngineCall m_run]
          ++ callback_trace reports ++ rest)
  = as_messages reports ++ sent rest.
Proof.
  cbn [sent app]. rewrite sent_app, sent_callback_trace. reflexivity.
Qed.

(** The [run] command itself on a worker that holds an engine: the thread
    is started with the payload, and nothing else happens. *)
Lemma run_command_starts_thread (w : OpenCLGAWorker E) (e : E) (d : Device)
    (data : list byte) (payload : PyVal) :
  decode data = Ok (PStr "run", payload) ->
  ocl_ga w = Some e -> device w = Some d ->
  process_data data w =
    (set_ocl_ga_thread (Some payload) w,
     [Log Verbose (cmd_received (dev_name d) (PStr "run")); ThreadStart payload], Ok tt).
Proof.
  intros Hdec He Hd.
  unfold process_data, device_name_of_self, attr.
  unfold bind, lift, get, emit, ret.
  rewrite Hdec. cbn [fst snd]. rewrite Hd, He. reflexivity.
Qed.

(** C2, amended. On a connected worker that holds an engine, the [run]
    command starts the thread and sends nothing itself; the thread sends
    one [generation_result] for each report of the engine's run, in order, and
    then, when the run returns, exactly one [end] as its last message.  When
    the engine's run raises, the reports made so far are all it sends. *)
Theorem completed_run_sends_generations_then_end
    (w : OpenCLGAWorker E) (e : E) (c : Client) (d : Device)
    (data : list byte) (m cr : PyVal) :
  decode data = Ok (PStr "run", PTuple [m; cr]) ->
  ocl_ga w = Some e -> client w = Some c -> device w = Some d ->
  let started := process_data data w in
  let thread := run_ocl_ga (PTuple [m; cr]) (state_of started) in
  trace_of started =
    [Log Verbose (cmd_received (dev_name d) (PStr "run")); ThreadStart (PTuple [m; cr])] /\
  match snd (snd (ga_run e m cr)) with
  | inr _ =>
      sent (trace_of thread) = as_messages (fst (ga_run e m cr)) ++ [end_result] /\
      generations_then_end (sent (trace_of thread)) /\
      value_of thread = Ok tt
  | inl x =>
      sent (trace_of thread) = as_messages (fst (ga_run e m cr)) /\
      value_of thread = Raise x
  end.
Proof.
  intros Hdec He Hc Hd started thread. subst started thread.
  rewrite (run_command_starts_thread w e d data _ Hdec He Hd).
  split; [reflexivity |].
  unfold state_of at 1 2 3 4 5. cbn [fst].
  rewrite (run_ocl_ga_trace (set_ocl_ga_thread (Some (PTuple [m; cr])) w) e c d m cr He Hc Hd).
  unfold trace_of, value_of. cbn [fst snd].
  rewrite sent_run_trace.
  destruct (snd (snd (ga_run e m cr))) as [x | u]; cbn [sent].
  - rewrite app_nil_r. split; reflexivity.
  - repeat split.
    exists (as_messages (fst (ga_run e m cr))). split; [reflexivity |].
    apply as_messages_are_generations.
Qed.

(** The [prepare] command when the constructor of the engine raises: the
    exception is caught, its traceback printed, and the worker is as before. *)
Lemma prepare_failing_in_constructor (w : OpenCLGAWorker E) (d : Device) (ctx : Context)
    (data : list byte) (payload options sample : PyVal) (x : Exc) :
  decode data = Ok (PStr "prepare", payload) ->
  device w = Some d -> context w = Some ctx ->
  pickle_loads payload = Ok options ->
  py_getitem options "sample_chromosome" = Ok sample ->
  ga_init {| user_options := options; cl_context := ctx |} = Raise x ->
  process_data data w =
    (w, [Log Verbose (cmd_received (dev_name d) (PStr "prepare"));
         Print sample; EngineCall m_init; Traceback x], Ok tt).
Proof.
  intros Hdec Hd Hctx Hpickle Hsample Hinit.
  unfold process_data, device_name_of_self, attr.
  unfold bind at 1 2 3 4 5 6. unfold lift at 1, get at 1 2, emit at 1, ret at 1 2.
  rewrite Hdec. cbn [fst snd]. rewrite Hd.
  cbn [py_in engine_commands existsb is_str String.eqb Ascii.eqb Bool.eqb orb andb].
  unfold try_except, dispatch. cbn [is_str String.eqb Ascii.eqb Bool.eqb].
  unfold create_ocl_ga, bind, lift, get, emit, ret, raise, modify.
  rewrite Hpickle, Hsample, Hctx, Hinit. reflexivity.
Qed.

(** The [prepare] command when the constructor returns an engine and the
    preparation step raises: the exception is caught, and the engine object
    assigned on line 103 stays in [ocl_ga]. *)
Lemma prepare_failing_in_preparation (w : OpenCLGAWorker E) (d : Device) (ctx : Context)
    (data : list byte) (payload options sample : PyVal) (e : E) (x : Exc) :
  decode data = Ok (PStr "prepare", payload) ->
  device w = Some d -> context w = Some ctx ->
  pickle_loads payload = Ok options ->
  py_getitem options "sample_chromosome" = Ok sample ->
  ga_init {| user_options := options; cl_context := ctx |} = Ok e ->
  snd (ga_prepare e) = Raise x ->
  process_data data w =
    (set_ocl_ga (Some (fst (ga_prepare e))) w,
     [Log Verbose (cmd_received (dev_name d) (PStr "prepare"));
      Print sample; EngineCall m_init; EngineCall m_prepare; Traceback x], Ok tt).
Proof.
  intros Hdec Hd Hctx Hpickle Hsample Hinit Hprep.
  unfold process_data, device_name_of_self, attr.
  unfold bind at 1 2 3 4 5 6. unfold lift at 1, get at 1 2, emit at 1, ret at 1 2.
  rewrite Hdec. cbn [fst snd]. rewrite Hd.
  cbn [py_in engine_commands existsb is_str String.eqb Ascii.eqb Bool.eqb orb andb].
  unfold try_except, dispatch. cbn [is_str String.eqb Ascii.eqb Bool.eqb].
  unfold create_ocl_ga, call_engine, attr, bind, lift, get, emit, ret, raise, modify.
  rewrite Hpickle, Hsample, Hctx, Hinit. cbn [ocl_ga set_ocl_ga fst snd].
  rewrite Hprep. reflexivity.
Qed.

(** The [exit] command on a connected worker whose main thread waits: the
    connection is shut down, the waiting thread notified and [alive] cleared;
    [client] is not assigned. *)
Lemma exit_on_connected_worker (w : OpenCLGAWorker E) (c : Client) (n : Condition)
    (d : Device) (data : list byte) (payload : PyVal) :
  decode data = Ok (PStr "exit", payload) ->
  client w = Some c -> notifier w = Some n -> device w = Some d ->
  process_data data w =
    (set_alive false w,
     [Log Verbose (cmd_received (dev_name d) (PStr "exit")); ClientShutdown; NotifyAll],
     Ok tt).
Proof.
  intros Hdec Hc Hn Hd.
  unfold process_data, device_name_of_self, attr.
  unfold bind at 1 2 3 4 5 6. unfold lift at 1, get at 1 2, emit at 1, ret at 1 2.
  rewrite Hdec. cbn [fst snd]. rewrite Hd.
  cbn [py_in engine_commands existsb is_str String.eqb Ascii.eqb Bool.eqb orb andb].
  unfold try_except, dispatch. cbn [is_str String.eqb Ascii.eqb Bool.eqb].
  unfold attr, bind, get, emit, ret, raise, modify.
  rewrite Hc, Hn. reflexivity.
Qed.

End WorkerFacts.

(** ** Properties of the device enumeration *)

Section Enumeration.

Lemma in_device_pairs (k : nat) (devices : Platform) (p d : nat) :
  In (p, d) (device_pairs k devices) <-> p = k /\ d < List.length devices.
Proof.
  unfold device_pairs. rewrite in_map_iff. split.
  - intros [didx [Heq Hin]]. injection Heq as <- <-.
    apply in_seq in Hin. split; [reflexivity | lia].
  - intros [-> Hd]. exists d. split; [reflexivity |]. apply in_seq. lia.
Qed.

Lemma in_platform_pairs (platforms : list Platform) :
  forall (k p d : nat),
    In (p, d) (platform_pairs k platforms) <->
    exists devices,
      k <= p /\ nth_error platforms (p - k) = Some devices /\ d < List.length devices.
Proof.
  induction platforms as [| devices rest IH]; intros k p d; cbn [platform_pairs].
  - split; [intros [] |]. intros [devs [_ [H _]]]. destruct (p - k); discriminate H.
  - rewrite in_app_iff, in_device_pairs, IH. split.
    + intros [[-> Hd] | [devs [Hk [Hnth Hd]]]].
      * exists devices. rewrite Nat.sub_diag. repeat split; [lia | exact Hd].
      * exists devs. replace (p - k) with (S (p - S k)) by lia.
        repeat split; [lia | exact Hnth | exact Hd].
    + intros [devs [Hk [Hnth Hd]]].
      destruct (Nat.eq_dec p k) as [-> | Hne].
      * left. rewrite Nat.sub_diag in Hnth. injection Hnth as ->. split; [reflexivity | exact Hd].
      * right. exists devs. replace (p - k) with (S (p - S k)) in Hnth by lia.
        repeat split; [lia | exact Hnth | exact Hd].
Qed.








End Enumeration.

(** ** Properties of the pool *)

Section PoolFacts.

Context {E : Type}.

(** The loop of [is_alive] from any start value. *)
Lemma is_alive_loop (ws : list (OpenCLGAWorker E)) (b : bool) :
  fold_left (fun alive_ worker => alive_ && worker_is_alive worker) ws b
  = b && forallb worker_is_alive ws.
Proof.
  revert b. induction ws as [| w ws IH]; intros b; cbn [fold_left forallb].
  - rewrite andb_true_r. reflexivity.
  - rewrite IH, andb_assoc. reflexivity.
Qed.

Lemma is_alive_forallb (p : OpenCLGAClient E) :
  is_alive p = forallb worker_is_alive (workerProcesses p).
Proof. unfold is_alive. rewrite is_alive_loop. reflexivity. Qed.

Lemma worker_is_alive_running (w : OpenCLGAWorker E) :
  worker_is_alive w = true <-> process w = Running.
Proof.
  unfold worker_is_alive. destruct (process w); split; intros H;
    try reflexivity; discriminate H.
Qed.

(** After its process ended, a worker is not alive. *)
Lemma exit_nth_not_alive (ws : list (OpenCLGAWorker E)) :
  forall i, i < List.length ws -> forallb worker_is_alive (exit_nth i ws) = false.
Proof.
  induction ws as [| w ws IH]; intros i Hi; cbn [List.length] in Hi; [lia |].
  destruct i as [| i]; cbn [exit_nth forallb].
  - unfold worker_is_alive at 1. destruct (process w) eqn:Hp; cbn; try rewrite Hp; reflexivity.
  - rewrite (IH i) by lia. apply andb_false_r.
Qed.

(** C6. [is_alive()] is the conjunction of [Process.is_alive()] over the
    workers of the pool: it is true exactly when the process of every worker
    runs, it is false when some worker is not alive, and it is false once
    the process of any one worker of the pool has ended. *)
Theorem is_alive_is_the_conjunction (p : OpenCLGAClient E) :
  is_alive p = forallb worker_is_alive (workerProcesses p) /\
  (is_alive p = true <-> Forall (fun w => process w = Running) (workerProcesses p)) /\
  (forall w, In w (workerProcesses p) -> worker_is_alive w = false -> is_alive p = false) /\
  (forall i, i < List.length (workerProcesses p) ->
     is_alive (set_workers (exit_nth i (workerProcesses p)) p) = false).
Proof.
  split; [apply is_alive_forallb |].
  split; [| split].
  - rewrite is_alive_forallb, forallb_forall, Forall_forall.
    split; intros H w Hin; apply worker_is_alive_running, H, Hin.
  - intros w Hin Hdead. rewrite is_alive_forallb.
    destruct (forallb worker_is_alive (workerProcesses p)) eqn:Hall; [| reflexivity].
    rewrite forallb_forall in Hall. rewrite (Hall w Hin) in Hdead. discriminate Hdead.
  - intros i Hi. rewrite is_alive_forallb. apply exit_nth_not_alive, Hi.
Qed.

(** [stop_workers] returns only through its last line. *)
Lemma stop_workers_returns_empty (p p' : OpenCLGAClient E) (tr : list Event) :
  stop_workers p = (p', tr, Ok tt) -> workerProcesses p' = [].
Proof.
  unfold stop_workers, bind, over_workers, modify.
  destruct (for_each_worker _ (workerProcesses p)) as [[ws t] [e | u]]; intros H.
  - discriminate H.
  - injection H as <- _. reflexivity.
Qed.

Lemma terminate_started_handle (w : OpenCLGAWorker E) :
  started_handle w ->
  terminate w =
    (terminated w,
     (if truthy (client w) then [ClientShutdown] else [])
       ++ [ProcessTerminate (platform_index w) (device_index w)],
     Ok tt).
Proof.
  intros [Hp Hn]. unfold terminate, bind, get, modify, emit, ret, raise.
  rewrite Hn.
  destruct (client w) eqn:Hc; destruct (process w) eqn:Hcase; try contradiction;
    cbn; rewrite Hcase; reflexivity.
Qed.

Lemma terminate_all_started (ws : list (OpenCLGAWorker E)) :
  Forall started_handle ws ->
  exists tr,
    for_each_worker (emit (Print (PStr "process is alive")) ;; terminate) ws
    = (map terminated ws, tr, Ok tt).
Proof.
  induction 1 as [| w ws Hw _ [tr IH]]; cbn [for_each_worker map].
  - exists []. reflexivity.
  - unfold bind at 1. cbn [emit]. rewrite (terminate_started_handle w Hw), IH.
    eexists. reflexivity.
Qed.

Lemma stop_workers_on_started_handles (p : OpenCLGAClient E) :
  Forall started_handle (workerProcesses p) ->
  exists tr, stop_workers p = (set_workers [] p, tr, Ok tt).
Proof.
  intros Hall. destruct (terminate_all_started _ Hall) as [tr Htr].
  unfold stop_workers. unfold bind at 1. unfold over_workers. rewrite Htr.
  exists (tr ++ []). reflexivity.
Qed.

(** C8. Whatever workers the pool holds, when [stop_workers()] returns the
    list of workers is empty; and it does return on every pool whose workers
    are started handles, as the constructor leaves them. *)
Theorem stop_workers_leaves_no_worker (p : OpenCLGAClient E) :
  (forall p' tr, stop_workers p = (p', tr, Ok tt) -> workerProcesses p' = []) /\
  (Forall started_handle (workerProcesses p) ->
   exists p' tr, stop_workers p = (p', tr, Ok tt) /\ workerProcesses p' = []).
Proof.
  split.
  - intros p' tr H. exact (stop_workers_returns_empty p p' tr H).
  - intros Hall. destruct (stop_workers_on_started_handles p Hall) as [tr Htr].
    exists (set_workers [] p), tr. split; [exact Htr | reflexivity].
Qed.

(** C10. On a pool without workers [is_alive()] is true, the conjunction of
    nothing; so it is true of the pool [stop_workers()] leaves when it
    returns. *)
Theorem is_alive_of_empty_pool_is_true :
  (forall p : OpenCLGAClient E, workerProcesses p = [] -> is_alive p = true) /\
  (forall (p p' : OpenCLGAClient E) (tr : list Event),
     stop_workers p = (p', tr, Ok tt) -> is_alive p' = true).
Proof.
  assert (Hempty : forall p : OpenCLGAClient E, workerProcesses p = [] -> is_alive p = true).
  { intros p Hp. unfold is_alive. rewrite Hp. reflexivity. }
  split; [exact Hempty |].
  intros p p' tr H. apply Hempty. exact (stop_workers_returns_empty p p' tr H).
Qed.

(** *** The constructor *)

Lemma fork_processes_appends (device_list : list (nat * nat)) (ip_ : string) (port_ : Z) :
  forall (ws : list (OpenCLGAWorker E)) (a : option bool),
    fork_processes device_list ip_ port_ {| workerProcesses := ws; pool_alive := a |}
    = ({| workerProcesses :=
            ws ++ map (fun dev => new_worker (fst dev) (snd dev) ip_ port_) device_list;
          pool_alive := a |}, [], Ok tt).
Proof.
  induction device_list as [| dev rest IH]; intros ws a; cbn [fork_processes map].
  - unfold ret. rewrite app_nil_r. reflexivity.
  - unfold bind at 1. unfold fork_process, modify, set_workers.
    cbn [workerProcesses pool_alive].
    rewrite IH, <- app_assoc. reflexivity.
Qed.

Lemma start_new_workers (device_list : list (nat * nat)) (ip_ : string) (port_ : Z) :
  exists tr,
    for_each_worker start
      (map (fun dev => new_worker (E:=E) (fst dev) (snd dev) ip_ port_) device_list)
    = (map (fun dev => set_process Running (new_worker (fst dev) (snd dev) ip_ port_))
         device_list, tr, Ok tt).
Proof.
  induction device_list as [| dev rest [tr IH]]; cbn [for_each_worker map].
  - exists []. reflexivity.
  - cbn. rewrite IH. eexists. reflexivity.
Qed.

(** The pool the constructor builds from the list that [recv] gave: one
    started worker per pair, in the order of the list. *)
Lemma new_client_workers (platforms : list Platform) (ip_ : string) (port_ : Z)
    (device_list : list (nat * nat)) :
  query_devices platforms = Ok device_list ->
  exists tr,
    new_client platforms ip_ port_ =
      Some ({| workerProcesses :=
                 map (fun dev => set_process Running (new_worker (E:=E) (fst dev) (snd dev) ip_ port_))
                   device_list;
               pool_alive := None |}, tr, Ok tt).
Proof.
  intros Hq. unfold new_client, create_workers_for_devices, recv_device_list. rewrite Hq.
  destruct (start_new_workers device_list ip_ port_) as [tr Htr].
  unfold bind, empty_pool. rewrite fork_processes_appends. cbn [app].
  unfold start_workers, over_workers. cbn [workerProcesses]. rewrite Htr.
  eexists. reflexivity.
Qed.

Lemma new_client_started_handles (platforms : list Platform) (ip_ : string) (port_ : Z)
    (p : OpenCLGAClient E) (tr : list Event) (r : result unit) :
  new_client platforms ip_ port_ = Some (p, tr, r) ->
  r = Ok tt /\ Forall started_handle (workerProcesses p).
Proof.
  intros Hnew. unfold new_client, create_workers_for_devices, recv_device_list in Hnew.
  destruct (query_devices platforms) as [e | device_list] eqn:Hq; [discriminate Hnew |].
  destruct (new_client_workers platforms ip_ port_ device_list Hq) as [tr' Hspec].
  unfold new_client, create_workers_for_devices, recv_device_list in Hspec. rewrite Hq in Hspec.
  rewrite Hspec in Hnew. injection Hnew as <- _ <-.
  split; [reflexivity |]. cbn [workerProcesses].
  apply Forall_forall. intros w Hin. apply in_map_iff in Hin.
  destruct Hin as [dev [<- _]]. split; [discriminate | reflexivity].
Qed.

(** *** The driving loop *)

(** Polling a pool without workers goes on for as long as no interrupt
    comes. *)
Lemma poll_empty_pool (world : nat -> Tick) (a : option bool) :
  forall fuel k,
    (forall j, k <= j < k + fuel -> world j <> KeyboardInterrupt) ->
    poll fuel world k {| workerProcesses := []; pool_alive := a |}
    = StillPolling (E:=E) {| workerProcesses := []; pool_alive := a |}.
Proof.
  induction fuel as [| fuel IH]; intros k Hquiet; cbn [poll]; [reflexivity |].
  assert (Hk : world k <> KeyboardInterrupt) by (apply Hquiet; lia).
  assert (Hrest : forall j, S k <= j < S k + fuel -> world j <> KeyboardInterrupt)
    by (intros j Hj; apply Hquiet; lia).
  destruct (world k) as [| i |]; [| destruct i |]; try contradiction;
    cbn; apply IH, Hrest.
Qed.

(** On a pool without workers the interrupt is the one way out of the
    loop: the first round that sees it calls [shutdown()], which has no
    worker to terminate and marks the pool not alive. *)
Lemma poll_empty_pool_interrupt (world : nat -> Tick) (a : option bool) :
  forall k fuel s,
    (forall j, s <= j < s + k -> world j <> KeyboardInterrupt) ->
    world (s + k) = KeyboardInterrupt ->
    k < fuel ->
    poll fuel world s {| workerProcesses := []; pool_alive := a |}
    = Interrupted (E:=E) (s + k)
        ({| workerProcesses := []; pool_alive := Some false |}, [], Ok tt).
Proof.
  induction k as [| k IH]; intros fuel s Hquiet Hint Hfuel;
    (destruct fuel as [| fuel]; [lia |]); cbn [poll].
  - rewrite Nat.add_0_r in *. rewrite Hint. reflexivity.
  - assert (Hs : world s <> KeyboardInterrupt) by (apply Hquiet; lia).
    assert (Hgoal : poll fuel world (S s) {| workerProcesses := []; pool_alive := a |}
                    = Interrupted (E:=E) (s + S k)
                        ({| workerProcesses := []; pool_alive := Some false |}, [], Ok tt)).
    { replace (s + S k) with (S s + k) by lia. apply IH.
      - intros j Hj. apply Hquiet. lia.
      - replace (S s + k) with (s + S k) by lia. exact Hint.
      - lia. }
    destruct (world s) as [| i |]; [| destruct i |]; try contradiction;
      cbn; exact Hgoal.
Qed.

(** C5, amended. When the enumeration gives no device, startup goes on:
    the constructor returns a pool without workers and starts nothing,
    [is_alive()] is true of that pool, and the driving loop keeps polling
    it, without reporting anything or leaving, for as long as no keyboard
    interrupt comes; the first round that sees a keyboard interrupt calls
    [shutdown()], which leaves the pool without workers and marked not
    alive. *)
Theorem no_device_pool_keeps_polling
    (platforms : list Platform) (server : string) (port_ : Z)
    (world : nat -> Tick) (fuel : nat) :
  query_devices platforms = Ok [] ->
  new_client (E:=E) platforms server port_ = Some (empty_pool, [], Ok tt) /\
  is_alive (E:=E) empty_pool = true /\
  ((forall k, k < fuel -> world k <> KeyboardInterrupt) ->
   start_ocl_ga_client (E:=E) platforms server port_ world fuel
   = Some (StillPolling empty_pool)) /\
  (forall k,
     k < fuel ->
     (forall j, j < k -> world j <> KeyboardInterrupt) ->
     world k = KeyboardInterrupt ->
     start_ocl_ga_client (E:=E) platforms server port_ world fuel
     = Some (Interrupted k
               ({| workerProcesses := []; pool_alive := Some false |}, [], Ok tt))).
Proof.
  intros Hq.
  assert (Hnew : new_client (E:=E) platforms server port_ = Some (empty_pool, [], Ok tt)).
  { unfold new_client, create_workers_for_devices, recv_device_list. rewrite Hq. reflexivity. }
  split; [exact Hnew |]. split; [reflexivity |]. split.
  - intros Hquiet. unfold start_ocl_ga_client. rewrite Hnew. f_equal.
    apply poll_empty_pool. intros j Hj. apply Hquiet. lia.
  - intros k Hfuel Hquiet Hint. unfold start_ocl_ga_client. rewrite Hnew. f_equal.
    apply (poll_empty_pool_interrupt world None k fuel 0).
    + intros j Hj. apply Hquiet. lia.
    + exact Hint.
    + exact Hfuel.
Qed.

End PoolFacts.

(** ** The theorems on the scripted engine *)

Lemma engine_command_before_prepare_is_rejected_witness :
  process_data Stub.pause_msg Stub.idle =
    (Stub.idle,
     [Log Verbose (cmd_received "gpu0" (PStr "pause"));
      Log Error (only_after_prepared (PStr "pause"))], Ok tt).
Proof.
  refine (proj2 (proj2 (proj2
    (engine_command_before_prepare_is_rejected
       Stub.idle Stub.pause_msg "pause" PNone _ _ _))) Stub.gpu _).
  - vm_compute. reflexivity.
  - simpl. auto.
  - reflexivity.
  - reflexivity.
Defined.

Lemma completed_run_sends_generations_then_end_witness :
  sent (trace_of (run_ocl_ga Stub.probs
                    (state_of (process_data Stub.run_msg (Stub.after_prepare "good")))))
  = [generation_result (PInt 0) (snd (Stub.report 0));
     generation_result (PInt 1) (snd (Stub.report 1));
     generation_result (PInt 2) (snd (Stub.report 2));
     end_result].
Proof.
  refine (proj1 (proj2
    (completed_run_sends_generations_then_end
       (Stub.after_prepare "good") (Stub.prepared_engine Stub.good_options)
       Stub.connection Stub.gpu Stub.run_msg (PFloat "0.05") (PFloat "0.9") _ _ _ _))).
  - vm_compute. reflexivity.
  - vm_compute. reflexivity.
  - reflexivity.
  - reflexivity.
Defined.

(** C2 as stated, refuted. A worker prepared with an engine whose run makes
    one report and then raises: the [run] command makes the thread send that
    one [generation_result] and no [end]. *)
Lemma failed_run_sends_no_end :
  value_of (process_data (Stub.prepare_msg "run_fails") Stub.idle) = Ok tt /\
  ocl_ga (Stub.after_prepare "run_fails") = Some (Stub.prepared_engine Stub.failing_options) /\
  sent (trace_of (run_ocl_ga Stub.probs
                    (state_of (process_data Stub.run_msg (Stub.after_prepare "run_fails")))))
  = [generation_result (PInt 0) (snd (Stub.report 0))] /\
  ~ generations_then_end
      (sent (trace_of (run_ocl_ga Stub.probs
                         (state_of (process_data Stub.run_msg (Stub.after_prepare "run_fails")))))).
Proof.
  assert (Hsent :
    sent (trace_of (run_ocl_ga Stub.probs
                      (state_of (process_data Stub.run_msg (Stub.after_prepare "run_fails")))))
    = [generation_result (PInt 0) (snd (Stub.report 0))]) by (vm_compute; reflexivity).
  split; [vm_compute; reflexivity |].
  split; [vm_compute; reflexivity |].
  split; [exact Hsent |].
  rewrite Hsent. intros [gens [Heq Hgens]].
  destruct gens as [| g [| g' gens]]; discriminate Heq.
Qed.

(** C3, on the code. The [prepare] command with options whose kernel does not
    build: the constructor returns, the preparation step raises, the exception
    is caught and its traceback printed, and the worker now holds the engine
    that was never prepared; a [pause] that follows is not rejected but
    handed to that engine. *)
Theorem failed_preparation_leaves_the_engine :
  process_data (Stub.prepare_msg "bad_kernel") Stub.idle =
    (Stub.after_prepare "bad_kernel",
     [Log Verbose (cmd_received "gpu0" (PStr "prepare"));
      Print (PList [PInt 0; PInt 1; PInt 2]);
      EngineCall m_init; EngineCall m_prepare;
      Traceback (EngineError "kernel")], Ok tt) /\
  option_map Stub.prepared (ocl_ga (Stub.after_prepare "bad_kernel")) = Some false /\
  trace_of (process_data Stub.pause_msg (Stub.after_prepare "bad_kernel")) =
    [Log Verbose (cmd_received "gpu0" (PStr "pause")); EngineCall m_pause].
Proof.
  repeat split; vm_compute; reflexivity.
Qed.

(** C1, on the code. A worker whose [prepare] failed in the preparation
    step has never been prepared, yet holds the engine the constructor
    returned, and [not self.ocl_ga] is false of it: none of the six commands
    is rejected.  Each is logged and handed to that engine, and [save],
    [best] and [statistics] send their result. *)
Theorem unprepared_engine_is_handed_the_commands :
  value_of (process_data (Stub.prepare_msg "bad_kernel") Stub.idle) = Ok tt /\
  In (Traceback (EngineError "kernel"))
     (trace_of (process_data (Stub.prepare_msg "bad_kernel") Stub.idle)) /\
  option_map Stub.prepared (ocl_ga (Stub.after_prepare "bad_kernel")) = Some false /\
  trace_of (Stub.receive "{'command': 'pause', 'data': None}"
              (Stub.after_prepare "bad_kernel")) =
    [Log Verbose (cmd_received "gpu0" (PStr "pause")); EngineCall m_pause] /\
  trace_of (Stub.receive "{'command': 'stop', 'data': None}"
              (Stub.after_prepare "bad_kernel")) =
    [Log Verbose (cmd_received "gpu0" (PStr "stop")); EngineCall m_stop] /\
  trace_of (Stub.receive "{'command': 'restore', 'data': 'state.bin'}"
              (Stub.after_prepare "bad_kernel")) =
    [Log Verbose (cmd_received "gpu0" (PStr "restore")); EngineCall m_restore] /\
  trace_of (Stub.receive "{'command': 'best', 'data': None}"
              (Stub.after_prepare "bad_kernel")) =
    [Log Verbose (cmd_received "gpu0" (PStr "best")); EngineCall m_get_the_best;
     ClientSend (best_result (PList [PInt 0; PInt 1; PInt 2]))] /\
  trace_of (Stub.receive "{'command': 'save', 'data': 'state.bin'}"
              (Stub.after_prepare "bad_kernel")) =
    [Log Verbose (cmd_received "gpu0" (PStr "save")); EngineCall m_save;
     ClientSend save_result] /\
  trace_of (Stub.receive "{'command': 'statistics', 'data': None}"
              (Stub.after_prepare "bad_kernel")) =
    [Log Verbose (cmd_received "gpu0" (PStr "statistics")); EngineCall m_get_statistics;
     ClientSend (statistics_result (PDict []))].
Proof.
  split; [vm_compute; reflexivity |].
  split; [vm_compute; tauto |].
  repeat split; vm_compute; reflexivity.
Qed.

(** C4, on the code. Two [exit] commands on a connected worker: the first
    leaves [client] as it was, and the second shuts the connection down and
    notifies the condition once more. *)
Theorem second_exit_shuts_down_again :
  client (state_of (process_data Stub.exit_msg Stub.idle)) = Some Stub.connection /\
  trace_of (process_data Stub.exit_msg Stub.idle) =
    [Log Verbose (cmd_received "gpu0" (PStr "exit")); ClientShutdown; NotifyAll] /\
  trace_of (process_data Stub.exit_msg (state_of (process_data Stub.exit_msg Stub.idle))) =
    [Log Verbose (cmd_received "gpu0" (PStr "exit")); ClientShutdown; NotifyAll] /\
  List.length
    (filter is_shutdown
       (trace_of (process_data Stub.exit_msg Stub.idle) ++
        trace_of (process_data Stub.exit_msg (state_of (process_data Stub.exit_msg Stub.idle)))))
  = 2.
Proof.
  repeat split; vm_compute; reflexivity.
Qed.

Lemma no_device_pool_keeps_polling_witness :
  start_ocl_ga_client (E:=Stub.GA) Stub.no_device "127.0.0.1" 12345%Z (fun _ => Quiet) 3
  = Some (StillPolling empty_pool) /\
  start_ocl_ga_client (E:=Stub.GA) Stub.no_device "127.0.0.1" 12345%Z
    Stub.interrupt_in_round_two 3
  = Some (Interrupted 2
            ({| workerProcesses := []; pool_alive := Some false |}, [], Ok tt)).
Proof.
  split.
  - refine (proj1 (proj2 (proj2
      (no_device_pool_keeps_polling Stub.no_device "127.0.0.1" 12345%Z
         (fun _ => Quiet) 3 eq_refl))) _).
    intros k _. discriminate.
  - refine (proj2 (proj2 (proj2
      (no_device_pool_keeps_polling Stub.no_device "127.0.0.1" 12345%Z
         Stub.interrupt_in_round_two 3 eq_refl))) 2 _ _ _).
    + lia.
    + intros [| [| j]] Hj; [discriminate | discriminate | lia].
    + reflexivity.
Defined.

(** C5 as stated, refuted. One platform without devices: the enumeration
    sends the empty list, the constructor returns a pool without workers
    instead of failing, and however long the driving loop runs undisturbed it
    is still polling that pool. *)
Lemma no_device_startup_does_not_abort :
  query_devices Stub.no_device = Ok [] /\
  new_client (E:=Stub.GA) Stub.no_device "127.0.0.1" 12345%Z = Some (empty_pool, [], Ok tt) /\
  ~ (exists fuel,
       start_ocl_ga_client (E:=Stub.GA) Stub.no_device "127.0.0.1" 12345%Z (fun _ => Quiet) fuel
       <> Some (StillPolling empty_pool)).
Proof.
  split; [reflexivity |]. split; [reflexivity |].
  intros [fuel H]. apply H.
  unfold start_ocl_ga_client. cbn [new_client].
  change (new_client Stub.no_device "127.0.0.1" 12345%Z)
    with (Some (@empty_pool Stub.GA, @nil Event, Ok tt)).
  cbv iota beta. f_equal. apply poll_empty_pool. intros j _. discriminate.
Qed.


Lemma undecodable_message_escapes_witness :
  process_data Stub.keyless_msg Stub.idle = (Stub.idle, [], Raise (KeyError "data")).
Proof.
  apply (proj1 undecodable_message_escapes).
  vm_compute. reflexivity.
Defined.

Lemma is_alive_is_the_conjunction_witness :
  is_alive Stub.started_pool = true /\
  is_alive (set_workers (exit_nth 1 (workerProcesses Stub.started_pool)) Stub.started_pool)
  = false.
Proof.
  split.
  - apply (proj2 (proj1 (proj2 (is_alive_is_the_conjunction Stub.started_pool)))).
    repeat constructor.
  - apply (proj2 (proj2 (proj2 (is_alive_is_the_conjunction Stub.started_pool))) 1).
    simpl. lia.
Defined.

Lemma stop_workers_leaves_no_worker_witness :
  exists p' tr,
    stop_workers Stub.started_pool = (p', tr, Ok tt) /\ workerProcesses p' = [].
Proof.
  apply (proj2 (stop_workers_leaves_no_worker Stub.started_pool)).
  repeat (constructor; [split; [discriminate | reflexivity] |]).
  constructor.
Defined.

Lemma is_alive_of_empty_pool_is_true_witness :
  is_alive (state_of (stop_workers Stub.started_pool)) = true.
Proof.
  refine (proj2 is_alive_of_empty_pool_is_true Stub.started_pool _
            (trace_of (stop_workers Stub.started_pool)) _).
  vm_compute. reflexivity.
Defined.

(** ** More on the dispatch handler *)

Section HandlerFacts.

Context {E : Type} {engine : OpenCLGA E} {runtime : PyRuntime}.

(** [process_data] once the message is decoded, on a worker that has its
    device: the guard, or the guarded [try]. *)
Lemma process_data_decoded (w : OpenCLGAWorker E) (d : Device) (data : list byte)
    (cmd payload : PyVal) :
  decode data = Ok (cmd, payload) -> device w = Some d ->
  process_data data w =
    if py_in cmd engine_commands && negb (truthy (ocl_ga w))
    then (w, [Log Verbose (cmd_received (dev_name d) cmd);
              Log Error (only_after_prepared cmd)], Ok tt)
    else
      (state_of (try_except (dispatch cmd payload) (fun e => emit (Traceback e)) w),
       Log Verbose (cmd_received (dev_name d) cmd)
         :: trace_of (try_except (dispatch cmd payload) (fun e => emit (Traceback e)) w),
       value_of (try_except (dispatch cmd payload) (fun e => emit (Traceback e)) w)).
Proof.
  intros Hdec Hd.
  unfold process_data, device_name_of_self, attr.
  unfold bind at 1 2 3 4 5 6. unfold lift at 1, get at 1 2, emit at 1, ret at 1 2.
  rewrite Hdec. cbn [fst snd]. rewrite Hd. cbn [fst snd dev_name app].
  destruct (py_in cmd engine_commands && negb (truthy (ocl_ga w))).
  - reflexivity.
  - destruct (try_except (dispatch cmd payload) (fun e => emit (Traceback e)) w)
      as [[w' t] r]. reflexivity.
Qed.

(** The bare [except] of line 158 lets nothing through. *)
Lemma try_except_returns (body : M (OpenCLGAWorker E) unit) (w : OpenCLGAWorker E) :
  value_of (try_except body (fun e => emit (Traceback e)) w) = Ok tt.
Proof.
  unfold try_except. destruct (body w) as [[w' t] [e | []]]; reflexivity.
Qed.

Lemma try_except_traceback (body : M (OpenCLGAWorker E) unit) (w : OpenCLGAWorker E) (e : Exc) :
  value_of (body w) = Raise e ->
  try_except body (fun e => emit (Traceback e)) w =
    (state_of (body w), trace_of (body w) ++ [Traceback e], Ok tt).
Proof.
  unfold try_except. destruct (body w) as [[w' t] [e' | []]]; cbn; intros H.
  - injection H as ->. reflexivity.
  - discriminate H.
Qed.

(** Once a message is decoded, on a worker that has its device, no
    exception leaves [process_data], whatever the command, the payload and the
    engine do; what the branch of the command raised is printed as a
    traceback, the last thing the handler does. *)
Theorem handler_failure_stays_inside
    (w : OpenCLGAWorker E) (d : Device) (data : list byte) (cmd payload : PyVal) :
  decode data = Ok (cmd, payload) -> device w = Some d ->
  value_of (process_data data w) = Ok tt /\
  (forall e,
     py_in cmd engine_commands && negb (truthy (ocl_ga w)) = false ->
     value_of (dispatch cmd payload w) = Raise e ->
     process_data data w =
       (state_of (dispatch cmd payload w),
        Log Verbose (cmd_received (dev_name d) cmd)
          :: trace_of (dispatch cmd payload w) ++ [Traceback e],
        Ok tt)).
Proof.
  intros Hdec Hd. rewrite (process_data_decoded w d data cmd payload Hdec Hd). split.
  - destruct (py_in cmd engine_commands && negb (truthy (ocl_ga w))); [reflexivity |].
    apply try_except_returns.
  - intros e Hguard Hraise. rewrite Hguard.
    rewrite (try_except_traceback _ w e Hraise). reflexivity.
Qed.

Lemma not_known_command (cmd : PyVal) :
  py_in cmd known_commands = false ->
  is_str "prepare" cmd = false /\ is_str "pause" cmd = false /\
  is_str "stop" cmd = false /\ is_str "restore" cmd = false /\
  is_str "save" cmd = false /\ is_str "best" cmd = false /\
  is_str "statistics" cmd = false /\ is_str "run" cmd = false /\
  is_str "exit" cmd = false.
Proof.
  unfold py_in, known_commands. cbn [existsb]. intros H.
  repeat (apply orb_false_elim in H; destruct H as [? H]).
  repeat split; assumption.
Qed.

(** A command that is none of the nine names of the chain, a string or not,
    is answered by one error line: the worker stays as it is, the engine is
    not called and nothing is sent, even on a worker without engine. *)
Theorem unknown_command_is_only_logged
    (w : OpenCLGAWorker E) (d : Device) (data : list byte) (cmd payload : PyVal) :
  decode data = Ok (cmd, payload) -> device w = Some d ->
  py_in cmd known_commands = false ->
  process_data data w =
    (w, [Log Verbose (cmd_received (dev_name d) cmd);
         Log Error (unknown_command cmd)], Ok tt).
Proof.
  intros Hdec Hd Hunknown.
  rewrite (process_data_decoded w d data cmd payload Hdec Hd).
  destruct (not_known_command cmd Hunknown)
    as (Hprepare & Hpause & Hstop & Hrestore & Hsave & Hbest & Hstat & Hrun & Hexit).
  assert (Hguard : py_in cmd engine_commands = false).
  { unfold py_in, engine_commands. cbn [existsb].
    rewrite Hpause, Hstop, Hrestore, Hbest, Hsave, Hstat. reflexivity. }
  rewrite Hguard. cbn [andb].
  unfold try_except, dispatch.
  rewrite Hprepare, Hpause, Hstop, Hrestore, Hsave, Hbest, Hstat, Hrun, Hexit.
  reflexivity.
Qed.

End HandlerFacts.

Lemma handler_failure_stays_inside_witness :
  value_of (process_data (Stub.prepare_msg "bad_options") Stub.idle) = Ok tt.
Proof.
  refine (proj1 (handler_failure_stays_inside Stub.idle Stub.gpu
                   (Stub.prepare_msg "bad_options") (PStr "prepare")
                   (PBytes (list_byte_of_string "bad_options")) _ _)).
  - vm_compute. reflexivity.
  - reflexivity.
Defined.

Lemma unknown_command_is_only_logged_witness :
  Stub.receive "{'command': 7, 'data': None}" Stub.idle =
    (Stub.idle,
     [Log Verbose (cmd_received "gpu0" (PInt 7)); Log Error (unknown_command (PInt 7))],
     Ok tt).
Proof.
  refine (unknown_command_is_only_logged (runtime := Stub.wide_runtime)
            Stub.idle Stub.gpu _ (PInt 7) PNone _ _ _).
  - vm_compute. reflexivity.
  - reflexivity.
  - reflexivity.
Defined.

(** ** The branches of the commands *)

Section Commands.

Context {E : Type} {engine : OpenCLGA E} {runtime : PyRuntime}.

(** A method call on a worker that holds an engine. *)
Lemma call_engine_on_engine {A} (m : EngineMethod) (name : string)
    (method : E -> E * result A) (w : OpenCLGAWorker E) (e : E) :
  ocl_ga w = Some e ->
  call_engine m name method w =
    (set_ocl_ga (Some (fst (method e))) w, [EngineCall m], snd (method e)).
Proof.
  intros He. unfold call_engine, attr, bind, get, emit, modify, lift, ret, raise.
  rewrite He. destruct (method e) as [e' [x | a]]; reflexivity.
Qed.

(** The guard lets the engine commands through on a worker with an engine,
    and every other command on any worker. *)
Lemma guard_passes_with_engine (w : OpenCLGAWorker E) (e : E) (cmd : PyVal) :
  ocl_ga w = Some e ->
  py_in cmd engine_commands && negb (truthy (ocl_ga w)) = false.
Proof. intros He. rewrite He. apply andb_false_r. Qed.

Ltac enter_branch Hdec Hd Hguard :=
  rewrite (process_data_decoded _ _ _ _ _ Hdec Hd), Hguard;
  unfold try_except, dispatch;
  cbn [is_str String.eqb Ascii.eqb Bool.eqb].

(** The commands [pause], [stop] and [restore] on a worker that holds an
    engine: the method is called once, on the engine the worker holds, with
    the payload for [restore]; nothing is sent, whether the method returns or
    raises, and a raise is printed as a traceback. *)
Theorem control_commands_call_the_engine_once
    (w : OpenCLGAWorker E) (e : E) (d : Device) :
  ocl_ga w = Some e -> device w = Some d ->
  (forall data payload,
     decode data = Ok (PStr "pause", payload) ->
     process_data data w =
       (set_ocl_ga (Some (fst (ga_pause e))) w,
        Log Verbose (cmd_received (dev_name d) (PStr "pause")) :: EngineCall m_pause
          :: match snd (ga_pause e) with inr _ => [] | inl x => [Traceback x] end,
        Ok tt)) /\
  (forall data payload,
     decode data = Ok (PStr "stop", payload) ->
     process_data data w =
       (set_ocl_ga (Some (fst (ga_stop e))) w,
        Log Verbose (cmd_received (dev_name d) (PStr "stop")) :: EngineCall m_stop
          :: match snd (ga_stop e) with inr _ => [] | inl x => [Traceback x] end,
        Ok tt)) /\
  (forall data payload,
     decode data = Ok (PStr "restore", payload) ->
     process_data data w =
       (set_ocl_ga (Some (fst (ga_restore e payload))) w,
        Log Verbose (cmd_received (dev_name d) (PStr "restore")) :: EngineCall m_restore
          :: match snd (ga_restore e payload) with inr _ => [] | inl x => [Traceback x] end,
        Ok tt)).
Proof.
  intros He Hd.
  repeat split; intros data payload Hdec;
    enter_branch Hdec Hd (fun cmd => guard_passes_with_engine w e cmd He);
    rewrite (call_engine_on_engine _ _ _ w e He);
    match goal with |- context [snd ?r] => destruct (snd r) as [x | []] end;
    reflexivity.
Qed.

(** The commands [save], [best] and [statistics] on a connected worker that
    holds an engine: the method is called once, and when it returns exactly
    one result of the command's type is sent - [None] for [save], the first
    of the three values of [get_the_best()] for [best], the statistics for
    [statistics].  When the method raises, nothing is sent and the traceback
    is printed. *)
Theorem query_commands_answer_once
    (w : OpenCLGAWorker E) (e : E) (c : Client) (d : Device) :
  ocl_ga w = Some e -> client w = Some c -> device w = Some d ->
  (forall data payload,
     decode data = Ok (PStr "save", payload) ->
     process_data data w =
       (set_ocl_ga (Some (fst (ga_save e payload))) w,
        Log Verbose (cmd_received (dev_name d) (PStr "save")) :: EngineCall m_save
          :: match snd (ga_save e payload) with
             | inr _ => [ClientSend save_result]
             | inl x => [Traceback x]
             end,
        Ok tt)) /\
  (forall data payload,
     decode data = Ok (PStr "best", payload) ->
     process_data data w =
       (set_ocl_ga (Some (fst (ga_get_the_best e))) w,
        Log Verbose (cmd_received (dev_name d) (PStr "best")) :: EngineCall m_get_the_best
          :: match snd (ga_get_the_best e) with
             | inr triple => [ClientSend (best_result (fst (fst triple)))]
             | inl x => [Traceback x]
             end,
        Ok tt)) /\
  (forall data payload,
     decode data = Ok (PStr "statistics", payload) ->
     process_data data w =
       (set_ocl_ga (Some (fst (ga_get_statistics e))) w,
        Log Verbose (cmd_received (dev_name d) (PStr "statistics"))
          :: EngineCall m_get_statistics
          :: match snd (ga_get_statistics e) with
             | inr stats => [ClientSend (statistics_result stats)]
             | inl x => [Traceback x]
             end,
        Ok tt)).
Proof.
  intros He Hc Hd.
  repeat split; intros data payload Hdec;
    enter_branch Hdec Hd (fun cmd => guard_passes_with_engine w e cmd He);
    unfold bind; rewrite (call_engine_on_engine _ _ _ w e He);
    match goal with |- context [snd ?r] => destruct (snd r) as [x | a] end;
    try reflexivity;
    match goal with
    | |- context [send ?m ?s] => rewrite (send_connected m s c Hc)
    end; reflexivity.
Qed.

(** The [run] command is not among the commands the guard holds back.  On a
    worker without engine the thread is started all the same; its body logs
    the run and then fails on the missing engine, so that no engine method is
    called and no message, in particular no [end], is sent. *)
Theorem run_before_prepare_starts_a_failing_thread
    (w : OpenCLGAWorker E) (d : Device) (data : list byte) (m cr : PyVal) :
  decode data = Ok (PStr "run", PTuple [m; cr]) ->
  ocl_ga w = None -> device w = Some d ->
  process_data data w =
    (set_ocl_ga_thread (Some (PTuple [m; cr])) w,
     [Log Verbose (cmd_received (dev_name d) (PStr "run")); ThreadStart (PTuple [m; cr])],
     Ok tt) /\
  run_ocl_ga (PTuple [m; cr]) (state_of (process_data data w)) =
    (set_ocl_ga_thread (Some (PTuple [m; cr])) w,
     [Log Info (oclga_run_with (dev_name d) m cr)],
     Raise (AttributeError "run")).
Proof.
  intros Hdec He Hd.
  assert (Hstart : process_data data w =
    (set_ocl_ga_thread (Some (PTuple [m; cr])) w,
     [Log Verbose (cmd_received (dev_name d) (PStr "run")); ThreadStart (PTuple [m; cr])],
     Ok tt)).
  { rewrite (process_data_decoded w d data _ _ Hdec Hd). reflexivity. }
  split; [exact Hstart |].
  rewrite Hstart. unfold state_of. cbn [fst].
  unfold run_ocl_ga, device_name_of_self, attr.
  unfold bind, lift, get, emit, modify, ret, raise.
  cbn [unpack2 fst snd device set_ocl_ga_thread]. rewrite Hd. cbn. rewrite He. reflexivity.
Qed.

(** A [prepare] whose payload cannot be used fails before the engine is
    built: when [pickle.loads] raises, or when the unpickled options have no
    ["sample_chromosome"], the worker is left as it was, with the engine it
    may hold, the constructor of the engine is not called, and the
    traceback is printed. *)
Theorem unusable_prepare_payload_builds_no_engine
    (w : OpenCLGAWorker E) (d : Device) (data : list byte) (payload : PyVal) (x : Exc) :
  decode data = Ok (PStr "prepare", payload) -> device w = Some d ->
  (pickle_loads payload = Raise x \/
   exists options,
     pickle_loads payload = Ok options /\
     py_getitem options "sample_chromosome" = Raise x) ->
  process_data data w =
    (w, [Log Verbose (cmd_received (dev_name d) (PStr "prepare")); Traceback x], Ok tt).
Proof.
  intros Hdec Hd Hbad.
  rewrite (process_data_decoded w d data _ _ Hdec Hd).
  cbn [py_in engine_commands existsb is_str String.eqb Ascii.eqb Bool.eqb orb andb].
  unfold try_except, dispatch. cbn [is_str String.eqb Ascii.eqb Bool.eqb].
  unfold create_ocl_ga, bind, lift, get, emit, ret, raise, modify.
  destruct Hbad as [Hpickle | [options [Hpickle Hsample]]].
  - rewrite Hpickle. reflexivity.
  - rewrite Hpickle, Hsample. reflexivity.
Qed.

(** A [prepare] that goes through, on a worker with or without engine: the
    sample chromosome is printed, the engine is built from the unpickled
    options and the worker's context, prepared, and takes the place of the
    engine the worker held; nothing is sent. *)
Theorem prepare_installs_the_prepared_engine
    (w : OpenCLGAWorker E) (d : Device) (ctx : Context) (data : list byte)
    (payload options sample : PyVal) (e : E) :
  decode data = Ok (PStr "prepare", payload) ->
  device w = Some d -> context w = Some ctx ->
  pickle_loads payload = Ok options ->
  py_getitem options "sample_chromosome" = Ok sample ->
  ga_init {| user_options := options; cl_context := ctx |} = Ok e ->
  snd (ga_prepare e) = Ok tt ->
  process_data data w =
    (set_ocl_ga (Some (fst (ga_prepare e))) w,
     [Log Verbose (cmd_received (dev_name d) (PStr "prepare"));
      Print sample; EngineCall m_init; EngineCall m_prepare;
      Log Info (oclga_prepared (dev_name d))],
     Ok tt).
Proof.
  intros Hdec Hd Hctx Hpickle Hsample Hinit Hprep.
  rewrite (process_data_decoded w d data _ _ Hdec Hd).
  cbn [py_in engine_commands existsb is_str String.eqb Ascii.eqb Bool.eqb orb andb].
  unfold try_except, dispatch. cbn [is_str String.eqb Ascii.eqb Bool.eqb].
  unfold create_ocl_ga, call_engine, device_name_of_self, attr.
  unfold bind, lift, get, emit, ret, raise, modify.
  rewrite Hpickle, Hsample, Hctx, Hinit. cbn [ocl_ga set_ocl_ga fst snd].
  rewrite Hprep. cbn [device set_ocl_ga]. rewrite Hd. reflexivity.
Qed.

End Commands.

(** ** What the handler and the run thread leave alone *)

Section Frame.

Context {E : Type} {engine : OpenCLGA E} {runtime : PyRuntime}.

Lemma keeps_handles_refl (w : OpenCLGAWorker E) : keeps_handles w w.
Proof. repeat split. Qed.

Lemma keeps_handles_trans (w1 w2 w3 : OpenCLGAWorker E) :
  keeps_handles w1 w2 -> keeps_handles w2 w3 -> keeps_handles w1 w3.
Proof.
  unfold keeps_handles.
  intros (a1 & a2 & a3 & a4 & a5 & a6 & a7 & a8 & a9)
         (b1 & b2 & b3 & b4 & b5 & b6 & b7 & b8 & b9).
  repeat split; etransitivity; eassumption.
Qed.

Lemma kept_ret {A} (a : A) : handles_kept (E:=E) (ret a).
Proof. intros w. apply keeps_handles_refl. Qed.

Lemma kept_raise {A} (e : Exc) : handles_kept (E:=E) (A:=A) (raise e).
Proof. intros w. apply keeps_handles_refl. Qed.

Lemma kept_lift {A} (r : result A) : handles_kept (E:=E) (lift r).
Proof. intros w. apply keeps_handles_refl. Qed.

Lemma kept_emit (ev : Event) : handles_kept (E:=E) (emit ev).
Proof. intros w. apply keeps_handles_refl. Qed.

Lemma kept_get : handles_kept (E:=E) get.
Proof. intros w. apply keeps_handles_refl. Qed.

Lemma kept_modify (f : OpenCLGAWorker E -> OpenCLGAWorker E) :
  (forall w, keeps_handles w (f w)) -> handles_kept (modify f).
Proof. intros Hf w. apply Hf. Qed.

Lemma kept_bind {A B} (c : M (OpenCLGAWorker E) A) (k : A -> M (OpenCLGAWorker E) B) :
  handles_kept c -> (forall a, handles_kept (k a)) -> handles_kept (bind c k).
Proof.
  intros Hc Hk w. unfold bind. specialize (Hc w).
  destruct (c w) as [[w1 t1] [e | a]]; [exact Hc |].
  specialize (Hk a w1). destruct (k a w1) as [[w2 t2] r].
  exact (keeps_handles_trans _ _ _ Hc Hk).
Qed.

Lemma kept_try {A} (body : M (OpenCLGAWorker E) A) (handler : Exc -> M (OpenCLGAWorker E) A) :
  handles_kept body -> (forall e, handles_kept (handler e)) ->
  handles_kept (try_except body handler).
Proof.
  intros Hb Hh w. unfold try_except. specialize (Hb w).
  destruct (body w) as [[w1 t1] [e | a]]; [| exact Hb].
  specialize (Hh e w1). destruct (handler e w1) as [[w2 t2] r].
  exact (keeps_handles_trans _ _ _ Hb Hh).
Qed.

Create HintDb kept discriminated.

#[local] Hint Resolve kept_ret kept_raise kept_lift kept_emit kept_get : kept.

Ltac kept :=
  repeat
    match goal with
    | |- handles_kept (match ?x with _ => _ end) => destruct x
    | |- handles_kept (if ?b then _ else _) => destruct b
    | |- handles_kept (bind _ _) => apply kept_bind; [| intro; cbv beta]
    | |- handles_kept (try_except _ _) => apply kept_try; [| intro; cbv beta]
    | |- handles_kept (modify _) => apply kept_modify; intro; repeat split
    | |- handles_kept _ => solve [auto with kept]
    end.

Lemma kept_attr {A} (f : OpenCLGAWorker E -> option A) (name : string) :
  handles_kept (attr f name).
Proof. unfold attr. kept. Qed.

Lemma kept_send (msg : ResultMsg) : handles_kept (E:=E) (send msg).
Proof. unfold send. kept. Qed.

#[local] Hint Resolve kept_attr kept_send : kept.

Lemma kept_call_engine {A} (m : EngineMethod) (name : string) (method : E -> E * result A) :
  handles_kept (call_engine m name method).
Proof. unfold call_engine. kept. Qed.

Lemma kept_generation_callbacks (reports : list (PyVal * GenData)) :
  handles_kept (E:=E) (generation_callbacks reports).
Proof.
  induction reports as [| [index data] reports IH]; cbn [generation_callbacks].
  - kept.
  - unfold send_and_dump_info. kept.
Qed.

#[local] Hint Resolve kept_call_engine kept_generation_callbacks : kept.

Lemma kept_dispatch (cmd payload : PyVal) : handles_kept (dispatch cmd payload).
Proof. unfold dispatch, create_ocl_ga, device_name_of_self. kept. Qed.

(** The handler and the body of the run thread assign none of [client],
    [notifier], [device], [context], the indices, [ip] and [port], and do not
    touch the process state, whatever the message, the payload and the
    engine: of the worker they change at most [ocl_ga], [ocl_ga_thread] and
    [alive]. *)
Theorem handler_leaves_the_handles_alone :
  (forall (data : list byte) (w : OpenCLGAWorker E),
     keeps_handles w (state_of (process_data data w))) /\
  (forall (probs : PyVal) (w : OpenCLGAWorker E),
     keeps_handles w (state_of (run_ocl_ga probs w))).
Proof.
  split.
  - intros data. change (handles_kept (process_data data)).
    unfold process_data, device_name_of_self. kept. apply kept_dispatch.
  - intros probs. change (handles_kept (run_ocl_ga probs)).
    unfold run_ocl_ga, device_name_of_self. kept.
Qed.

(** *** Without connection *)

Lemma silent_ret {A} (a : A) : silent_offline (E:=E) (ret a).
Proof. intros w Hc. split; [exact Hc | reflexivity]. Qed.

Lemma silent_raise {A} (e : Exc) : silent_offline (E:=E) (A:=A) (raise e).
Proof. intros w Hc. split; [exact Hc | reflexivity]. Qed.

Lemma silent_lift {A} (r : result A) : silent_offline (E:=E) (lift r).
Proof. intros w Hc. split; [exact Hc | reflexivity]. Qed.

Lemma silent_get : silent_offline (E:=E) get.
Proof. intros w Hc. split; [exact Hc | reflexivity]. Qed.

Lemma silent_emit (ev : Event) : sent [ev] = [] -> silent_offline (E:=E) (emit ev).
Proof. intros Hev w Hc. split; [exact Hc | exact Hev]. Qed.

Lemma silent_modify (f : OpenCLGAWorker E -> OpenCLGAWorker E) :
  (forall w, client (f w) = client w) -> silent_offline (modify f).
Proof. intros Hf w Hc. split; [cbn; rewrite Hf; exact Hc | reflexivity]. Qed.

Lemma silent_send (msg : ResultMsg) : silent_offline (E:=E) (send msg).
Proof.
  intros w Hc. unfold send, bind, get. cbn. rewrite Hc. cbn.
  split; [exact Hc | reflexivity].
Qed.

Lemma silent_bind {A B} (c : M (OpenCLGAWorker E) A) (k : A -> M (OpenCLGAWorker E) B) :
  silent_offline c -> (forall a, silent_offline (k a)) -> silent_offline (bind c k).
Proof.
  intros Hc Hk w Hw. unfold bind. destruct (Hc w Hw) as [Hc1 Hs1].
  destruct (c w) as [[w1 t1] [e | a]]; [split; assumption |].
  cbn in Hc1, Hs1. destruct (Hk a w1 Hc1) as [Hc2 Hs2].
  destruct (k a w1) as [[w2 t2] r]. cbn in Hc2, Hs2 |- *.
  split; [exact Hc2 |]. rewrite sent_app, Hs1, Hs2. reflexivity.
Qed.

Lemma silent_try {A} (body : M (OpenCLGAWorker E) A) (handler : Exc -> M (OpenCLGAWorker E) A) :
  silent_offline body -> (forall e, silent_offline (handler e)) ->
  silent_offline (try_except body handler).
Proof.
  intros Hb Hh w Hw. unfold try_except. destruct (Hb w Hw) as [Hc1 Hs1].
  destruct (body w) as [[w1 t1] [e | a]]; [| split; assumption].
  cbn in Hc1, Hs1. destruct (Hh e w1 Hc1) as [Hc2 Hs2].
  destruct (handler e w1) as [[w2 t2] r]. cbn in Hc2, Hs2 |- *.
  split; [exact Hc2 |]. rewrite sent_app, Hs1, Hs2. reflexivity.
Qed.

#[local] Hint Resolve silent_ret silent_raise silent_lift silent_get silent_send : kept.

Ltac silent :=
  repeat
    match goal with
    | |- silent_offline (match ?x with _ => _ end) => destruct x
    | |- silent_offline (if ?b then _ else _) => destruct b
    | |- silent_offline (bind _ _) => apply silent_bind; [| intro; cbv beta]
    | |- silent_offline (try_except _ _) => apply silent_try; [| intro; cbv beta]
    | |- silent_offline (modify _) => apply silent_modify; intro; reflexivity
    | |- silent_offline (emit _) => apply silent_emit; reflexivity
    | |- silent_offline _ => solve [auto with kept]
    end.

Lemma silent_attr {A} (f : OpenCLGAWorker E -> option A) (name : string) :
  silent_offline (attr f name).
Proof. unfold attr. silent. Qed.

#[local] Hint Resolve silent_attr : kept.

Lemma silent_call_engine {A} (m : EngineMethod) (name : string) (method : E -> E * result A) :
  silent_offline (call_engine m name method).
Proof. unfold call_engine. silent. Qed.

Lemma silent_generation_callbacks (reports : list (PyVal * GenData)) :
  silent_offline (E:=E) (generation_callbacks reports).
Proof.
  induction reports as [| [index data] reports IH]; cbn [generation_callbacks].
  - silent.
  - unfold send_and_dump_info. silent.
Qed.

#[local] Hint Resolve silent_call_engine silent_generation_callbacks : kept.

Lemma send_offline (msg : ResultMsg) (w : OpenCLGAWorker E) :
  client w = None -> send msg w = (w, [], Ok tt).
Proof.
  intros Hc. unfold send, bind, get. cbn. rewrite Hc. reflexivity.
Qed.

Lemma generation_callbacks_offline (reports : list (PyVal * GenData)) (w : OpenCLGAWorker E) :
  client w = None ->
  generation_callbacks reports w =
    (w,
     map (fun r => Log Verbose (generation_line (fst r) (best (snd r)) (avg (snd r))
                                  (worst (snd r)))) reports,
     Ok tt).
Proof.
  intros Hc. induction reports as [| [index data] reports IH]; [reflexivity |].
  cbn [generation_callbacks]. unfold bind at 1.
  unfold send_and_dump_info. unfold bind at 1. cbn [emit].
  rewrite (send_offline _ w Hc). cbn [app]. rewrite IH. reflexivity.
Qed.

(** On a worker whose [client] is [None], [send] drops every message: the
    handler and the run thread put nothing on the outbound channel, whatever
    the command and the engine do, and leave [client] at [None].  The work
    is done all the same: on such a worker that holds an engine, [save],
    [best] and [statistics] call the engine once and drop the result, and the
    run thread runs the engine and logs every generation it reports. *)
Theorem nothing_is_sent_without_connection (w : OpenCLGAWorker E) :
  client w = None ->
  (forall data : list byte,
     sent (trace_of (process_data data w)) = [] /\
     client (state_of (process_data data w)) = None) /\
  (forall probs : PyVal,
     sent (trace_of (run_ocl_ga probs w)) = [] /\
     client (state_of (run_ocl_ga probs w)) = None) /\
  (forall (e : E) (d : Device),
     ocl_ga w = Some e -> device w = Some d ->
     (forall data payload,
        decode data = Ok (PStr "save", payload) ->
        process_data data w =
          (set_ocl_ga (Some (fst (ga_save e payload))) w,
           Log Verbose (cmd_received (dev_name d) (PStr "save")) :: EngineCall m_save
             :: match snd (ga_save e payload) with inr _ => [] | inl x => [Traceback x] end,
           Ok tt)) /\
     (forall data payload,
        decode data = Ok (PStr "best", payload) ->
        process_data data w =
          (set_ocl_ga (Some (fst (ga_get_the_best e))) w,
           Log Verbose (cmd_received (dev_name d) (PStr "best")) :: EngineCall m_get_the_best
             :: match snd (ga_get_the_best e) with inr _ => [] | inl x => [Traceback x] end,
           Ok tt)) /\
     (forall data payload,
        decode data = Ok (PStr "statistics", payload) ->
        process_data data w =
          (set_ocl_ga (Some (fst (ga_get_statistics e))) w,
           Log Verbose (cmd_received (dev_name d) (PStr "statistics"))
             :: EngineCall m_get_statistics
             :: match snd (ga_get_statistics e) with inr _ => [] | inl x => [Traceback x] end,
           Ok tt)) /\
     (forall m cr,
        run_ocl_ga (PTuple [m; cr]) w =
          (set_ocl_ga (Some (fst (snd (ga_run e m cr)))) w,
           Log Info (oclga_run_with (dev_name d) m cr) :: EngineCall m_run
             :: map (fun r => Log Verbose (generation_line (fst r) (best (snd r))
                                             (avg (snd r)) (worst (snd r))))
                  (fst (ga_run e m cr)),
           match snd (snd (ga_run e m cr)) with
           | inr _ => Ok tt
           | inl x => Raise x
           end))).
Proof.
  intros Hc. split; [| split].
  - intros data.
    assert (H : silent_offline (process_data data)).
    { unfold process_data, device_name_of_self. silent.
      unfold dispatch, create_ocl_ga, device_name_of_self. silent. }
    destruct (H w Hc) as [H1 H2]. split; assumption.
  - intros probs.
    assert (H : silent_offline (run_ocl_ga probs)).
    { unfold run_ocl_ga, device_name_of_self. silent. }
    destruct (H w Hc) as [H1 H2]. split; assumption.
  - intros e d He Hd.
    split; [| split; [| split]].
    1-3: intros data payload Hdec;
      rewrite (process_data_decoded _ _ _ _ _ Hdec Hd),
              (fun cmd => guard_passes_with_engine w e cmd He);
      unfold try_except, dispatch;
      cbn [is_str String.eqb Ascii.eqb Bool.eqb];
      unfold bind; rewrite (call_engine_on_engine _ _ _ w e He);
      match goal with |- context [snd ?r] => destruct (snd r) as [x | a] end;
      try reflexivity;
      match goal with
      | |- context [send ?m ?s] => rewrite (send_offline m s Hc)
      end; reflexivity.
    intros m cr.
    unfold run_ocl_ga, device_name_of_self, attr.
    unfold bind, lift, get, emit, modify, ret, raise.
    cbn [unpack2 fst snd]. rewrite Hd, He. cbn [fst snd dev_name app].
    rewrite (generation_callbacks_offline _ w Hc).
    destruct (ga_run e m cr) as [reports [e' [x | []]]]; cbn [fst snd].
    + rewrite app_nil_r. reflexivity.
    + rewrite (send_offline end_result (set_ocl_ga (Some e') w) Hc).
      rewrite !app_nil_r. reflexivity.
Qed.

End Frame.

(** ** The worker's main and the pool, end to end *)

Section MainFacts.

Context {E : Type}.

(** [create_context] step by step: the two lookups, the assignment of
    [device], the construction of the context, the assignment of [context]. *)
Lemma create_context_steps (h : Host) (w : OpenCLGAWorker E) :
  create_context h w =
    match nth_error (cl_platforms h) (platform_index w) with
    | None => (w, [], Raise IndexError)
    | Some platform =>
        match nth_error platform (device_index w) with
        | None => (w, [], Raise IndexError)
        | Some dev =>
            match cl_Context h [dev] with
            | inl e => (set_device (Some dev) w, [], Raise e)
            | inr ctx => (set_context (Some ctx) (set_device (Some dev) w), [], Ok ctx)
            end
        end
    end.
Proof.
  unfold create_context, py_index, bind, get, lift, modify, ret.
  destruct (nth_error (cl_platforms h) (platform_index w)) as [platform |]; [| reflexivity].
  destruct (nth_error platform (device_index w)) as [dev |]; [| reflexivity].
  cbn. destruct (cl_Context h [dev]) as [e | ctx]; reflexivity.
Qed.

(** [run] comes to wait for commands exactly when the worker's indices name
    a device, a context can be made on it and the server accepts the
    connection.  The worker then holds that device, the context, the
    connection and the condition, its engine attribute is untouched, and
    [device_info] with the device's name is the one message sent. *)
Theorem run_waits_exactly_when_ready
    (h : Host) (w w' : OpenCLGAWorker E) (tr : list MainEvent) :
  run h w = (w', tr, Waiting) <->
  exists platform d ctx c,
    nth_error (cl_platforms h) (platform_index w) = Some platform /\
    nth_error platform (device_index w) = Some d /\
    cl_Context h [d] = Ok ctx /\
    connect h (ip w) (port w) = Connected c /\
    w' = waiting_worker w d ctx c /\
    tr = [RandomSeed;
          MainLog Info (worker_created (dev_name d));
          MainLog Info (worker_connects (dev_name d) (ip w) (port w));
          Handler (ClientSend (device_info (dev_name d)));
          MainLog Info (worker_waits (dev_name d));
          ConditionWait].
Proof.
  unfold run. rewrite create_context_steps. split.
  - destruct (nth_error (cl_platforms h) (platform_index w)) as [platform |] eqn:Hp;
      [| discriminate].
    destruct (nth_error platform (device_index w)) as [d |] eqn:Hd; [| discriminate].
    destruct (cl_Context h [d]) as [e | ctx] eqn:Hctx; [discriminate |].
    cbn [device set_context set_device ip port].
    destruct (connect h (ip w) (port w)) as [c | | e] eqn:Hconn; try discriminate.
    match goal with
    | |- context [send ?m ?s] => rewrite (send_connected m s c eq_refl)
    end.
    intros H. injection H as <- <-.
    exists platform, d, ctx, c. repeat split; assumption || reflexivity.
  - intros (platform & d & ctx & c & Hp & Hd & Hctx & Hconn & -> & ->).
    rewrite Hp, Hd, Hctx. cbn [device set_context set_device ip port].
    rewrite Hconn.
    match goal with
    | |- context [send ?m ?s] => rewrite (send_connected m s c eq_refl)
    end.
    reflexivity.
Qed.

(** When [run] does not come to wait, on a worker as the pool starts it,
    nothing has been sent and the worker holds neither connection nor
    condition nor engine. *)
Theorem run_that_fails_sends_nothing
    (h : Host) (pidx didx : nat) (ip_ : string) (port_ : Z) :
  match run h (started_worker (E:=E) pidx didx ip_ port_) with
  | (_, _, Waiting) => True
  | (w', tr, _) =>
      client w' = None /\ notifier w' = None /\ ocl_ga w' = None /\ main_sent tr = []
  end.
Proof.
  unfold run. rewrite create_context_steps.
  destruct (nth_error (cl_platforms h) _) as [platform |];
    [| cbn; repeat split; reflexivity].
  destruct (nth_error platform _) as [d |]; [| cbn; repeat split; reflexivity].
  destruct (cl_Context h [d]) as [e | ctx]; [cbn; repeat split; reflexivity |].
  cbn [device set_context set_device].
  destruct (connect h _ _) as [c | | e]; [| cbn; repeat split; reflexivity ..].
  match goal with
  | |- context [send ?m ?s] => rewrite (send_connected m s c eq_refl)
  end.
  exact I.
Qed.

(** Every pair that [query_devices] sends names a device for
    [create_context]: on the worker of an enumerated pair the two lookups
    succeed, and only the construction of the context can fail.  On a pair
    that was not enumerated [create_context] raises [IndexError] and assigns
    nothing. *)
Theorem enumerated_pairs_name_devices
    (h : Host) (data : list (nat * nat)) (p d : nat) (ip_ : string) (port_ : Z) :
  query_devices (cl_platforms h) = Ok data ->
  (In (p, d) data ->
   exists dev,
     create_context h (started_worker (E:=E) p d ip_ port_) =
       match cl_Context h [dev] with
       | inl e => (set_device (Some dev) (started_worker p d ip_ port_), [], Raise e)
       | inr ctx =>
           (set_context (Some ctx) (set_device (Some dev) (started_worker p d ip_ port_)),
            [], Ok ctx)
       end) /\
  (~ In (p, d) data ->
   create_context h (started_worker (E:=E) p d ip_ port_) =
     (started_worker p d ip_ port_, [], Raise IndexError)).
Proof.
  unfold query_devices. destruct (cl_platforms h) as [| devices rest] eqn:Hpl; [discriminate |].
  intros Hq. injection Hq as <-.
  change (device_pairs 0 devices ++ platform_pairs 1 rest)
    with (platform_pairs 0 (devices :: rest)).
  rewrite create_context_steps, Hpl.
  cbn [started_worker new_worker set_process platform_index device_index].
  rewrite in_platform_pairs, Nat.sub_0_r. split.
  - intros (devs & _ & Hnth & Hlt). rewrite Hnth.
    destruct (nth_error devs d) as [dev |] eqn:Hdev.
    + exists dev. destruct (cl_Context h [dev]); reflexivity.
    + apply nth_error_None in Hdev. lia.
  - intros Hnot.
    destruct (nth_error (devices :: rest) p) as [devs |] eqn:Hnth; [| reflexivity].
    destruct (nth_error devs d) as [dev |] eqn:Hdev; [| reflexivity].
    exfalso. apply Hnot. exists devs. repeat split; [lia |].
    apply nth_error_Some. rewrite Hdev. discriminate.
Qed.

(** *** The pool *)

Lemma start_new_workers_trace (device_list : list (nat * nat)) (ip_ : string) (port_ : Z) :
  for_each_worker start
    (map (fun dev => new_worker (E:=E) (fst dev) (snd dev) ip_ port_) device_list)
  = (map (fun dev => started_worker (fst dev) (snd dev) ip_ port_) device_list,
     map (fun dev => ProcessStart (fst dev) (snd dev)) device_list, Ok tt).
Proof.
  induction device_list as [| dev rest IH]; cbn [for_each_worker map]; [reflexivity |].
  cbn. rewrite IH. reflexivity.
Qed.

Lemma new_client_pool (platforms : list Platform) (ip_ : string) (port_ : Z)
    (device_list : list (nat * nat)) :
  query_devices platforms = Ok device_list ->
  new_client (E:=E) platforms ip_ port_ =
    Some ({| workerProcesses :=
               map (fun dev => started_worker (fst dev) (snd dev) ip_ port_) device_list;
             pool_alive := None |},
          map (fun dev => ProcessStart (fst dev) (snd dev)) device_list,
          Ok tt).
Proof.
  intros Hq.
  unfold new_client, create_workers_for_devices, recv_device_list. rewrite Hq.
  unfold bind, empty_pool. rewrite fork_processes_appends. cbn [app].
  unfold start_workers, over_workers. cbn [workerProcesses].
  rewrite start_new_workers_trace. reflexivity.
Qed.

(** The constructor makes one worker for each pair the enumeration sent,
    in the order of the list, with the pool's address and nothing else set,
    and starts each of them once, in that order. *)
Theorem new_client_starts_one_worker_per_device
    (platforms : list Platform) (ip_ : string) (port_ : Z) (device_list : list (nat * nat)) :
  query_devices platforms = Ok device_list ->
  new_client (E:=E) platforms ip_ port_ =
    Some ({| workerProcesses :=
               map (fun dev => started_worker (fst dev) (snd dev) ip_ port_) device_list;
             pool_alive := None |},
          map (fun dev => ProcessStart (fst dev) (snd dev)) device_list,
          Ok tt) /\
  map (fun w : OpenCLGAWorker E => (platform_index w, device_index w))
    (map (fun dev => started_worker (fst dev) (snd dev) ip_ port_) device_list)
  = device_list.
Proof.
  intros Hq. split.
  - exact (new_client_pool platforms ip_ port_ device_list Hq).
  - clear Hq. rewrite map_map. cbn.
    induction device_list as [| [p d] rest IH]; [reflexivity |].
    cbn [map fst snd]. rewrite IH. reflexivity.
Qed.

End MainFacts.

(** ** Stopping the pool and leaving the driving loop *)

Section Shutdown.

Context {E : Type}.

Lemma terminate_all_trace (ws : list (OpenCLGAWorker E)) :
  Forall started_handle ws ->
  for_each_worker (emit (Print (PStr "process is alive")) ;; terminate) ws
  = (map terminated ws, flat_map stop_trace ws, Ok tt).
Proof.
  induction 1 as [| w ws Hw _ IH]; cbn [for_each_worker map flat_map]; [reflexivity |].
  unfold bind at 1. cbn [emit]. rewrite (terminate_started_handle w Hw), IH.
  reflexivity.
Qed.

(** [shutdown()] on a pool of started handles terminates every worker once,
    in the order of the list - the line is printed, a connection the handle
    holds is shut down, the process is terminated - and leaves the pool
    without workers and marked not alive. *)
Theorem shutdown_terminates_every_worker_once (p : OpenCLGAClient E) :
  Forall started_handle (workerProcesses p) ->
  shutdown p =
    ({| workerProcesses := []; pool_alive := Some false |},
     flat_map stop_trace (workerProcesses p), Ok tt) /\
  List.length (filter (fun ev => match ev with ProcessTerminate _ _ => true | _ => false end)
                 (flat_map stop_trace (workerProcesses p)))
  = List.length (workerProcesses p).
Proof.
  intros Hall. split.
  - unfold shutdown, stop_workers. unfold bind at 1 2. unfold over_workers.
    rewrite (terminate_all_trace _ Hall). cbn. rewrite !app_nil_r. reflexivity.
  - clear Hall. induction (workerProcesses p) as [| w ws IH]; [reflexivity |].
    cbn [flat_map]. rewrite filter_app, length_app, IH.
    unfold stop_trace. destruct (truthy (client w)); reflexivity.
Qed.

Lemma running_pool_is_alive (p : OpenCLGAClient E) :
  Forall (fun w => process w = Running) (workerProcesses p) -> is_alive p = true.
Proof.
  intros Hall. rewrite is_alive_forallb. apply forallb_forall.
  rewrite Forall_forall in Hall. intros w Hin.
  apply worker_is_alive_running, Hall, Hin.
Qed.

(** The loop on a pool whose workers all run, from round [s] on: quiet
    rounds pass, and the round in which a worker's process ends is the
    one that leaves the loop. *)
Lemma poll_until_exit (world : nat -> Tick) (p : OpenCLGAClient E) (i : nat) :
  Forall (fun w => process w = Running) (workerProcesses p) ->
  i < List.length (workerProcesses p) ->
  forall k fuel s,
    (forall j, s <= j < s + k -> world j = Quiet) ->
    world (s + k) = WorkerExits i ->
    k < fuel ->
    poll fuel world s p = SaidBye (s + k) (set_workers (exit_nth i (workerProcesses p)) p).
Proof.
  intros Hrun Hi. induction k as [| k IH]; intros fuel s Hquiet Hexit Hfuel;
    (destruct fuel as [| fuel]; [lia |]); cbn [poll].
  - rewrite Nat.add_0_r in *. rewrite Hexit.
    rewrite is_alive_forallb. cbn [workerProcesses set_workers].
    rewrite (exit_nth_not_alive _ i Hi). reflexivity.
  - rewrite (Hquiet s) by lia. rewrite (running_pool_is_alive p Hrun).
    rewrite (IH fuel (S s)).
    + replace (S s + k) with (s + S k) by lia. reflexivity.
    + intros j Hj. apply Hquiet. lia.
    + replace (S s + k) with (s + S k) by lia. exact Hexit.
    + lia.
Qed.

Lemma poll_until_interrupt (world : nat -> Tick) (p : OpenCLGAClient E) :
  Forall (fun w => process w = Running) (workerProcesses p) ->
  forall k fuel s,
    (forall j, s <= j < s + k -> world j = Quiet) ->
    world (s + k) = KeyboardInterrupt ->
    k < fuel ->
    poll fuel world s p = Interrupted (s + k) (shutdown p).
Proof.
  intros Hrun. induction k as [| k IH]; intros fuel s Hquiet Hint Hfuel;
    (destruct fuel as [| fuel]; [lia |]); cbn [poll].
  - rewrite Nat.add_0_r in *. rewrite Hint. reflexivity.
  - rewrite (Hquiet s) by lia. rewrite (running_pool_is_alive p Hrun).
    rewrite (IH fuel (S s)).
    + replace (S s + k) with (s + S k) by lia. reflexivity.
    + intros j Hj. apply Hquiet. lia.
    + replace (S s + k) with (s + S k) by lia. exact Hint.
    + lia.
Qed.

Lemma started_workers_run (device_list : list (nat * nat)) (ip_ : string) (port_ : Z) :
  Forall (fun w : OpenCLGAWorker E => process w = Running)
    (map (fun dev => started_worker (fst dev) (snd dev) ip_ port_) device_list).
Proof.
  apply Forall_forall. intros w Hin. apply in_map_iff in Hin.
  destruct Hin as [dev [<- _]]. reflexivity.
Qed.

Lemma started_workers_are_handles (device_list : list (nat * nat)) (ip_ : string) (port_ : Z) :
  Forall (started_handle (E:=E))
    (map (fun dev => started_worker (fst dev) (snd dev) ip_ port_) device_list).
Proof.
  apply Forall_forall. intros w Hin. apply in_map_iff in Hin.
  destruct Hin as [dev [<- _]]. split; [discriminate | reflexivity].
Qed.

(** The end of one worker's process leaves the handles of the others as
    they are. *)
Lemma exit_nth_other (ws : list (OpenCLGAWorker E)) :
  forall i j, j <> i -> nth_error (exit_nth i ws) j = nth_error ws j.
Proof.
  induction ws as [| w ws IH]; intros [| i] [| j] Hne; cbn; try reflexivity.
  - contradiction.
  - apply IH. intros ->. apply Hne. reflexivity.
Qed.

Lemma exit_nth_running (ws : list (OpenCLGAWorker E)) :
  forall i w,
    nth_error ws i = Some w -> process w = Running ->
    nth_error (exit_nth i ws) i = Some (set_process Finished w).
Proof.
  induction ws as [| w0 ws IH]; intros [| i] w Hnth Hrun; cbn in *; try discriminate.
  - injection Hnth as ->. rewrite Hrun. reflexivity.
  - apply IH; assumption.
Qed.

Lemma exit_nth_length (ws : list (OpenCLGAWorker E)) :
  forall i, List.length (exit_nth i ws) = List.length ws.
Proof.
  induction ws as [| w ws IH]; intros [| i]; cbn; try reflexivity.
  rewrite IH. reflexivity.
Qed.

(** The driving loop leaves in the first round in which the process of
    one worker has ended: with quiet rounds before round [k] and the exit of
    a worker of the pool seen in round [k], that round says bye and the pool
    is not alive.  The loop does nothing to the pool on its way out: it
    still holds all its workers, the one whose process ended apart each is
    exactly as the constructor started it - running, alive, not terminated -
    and [shutdown()] was not called, so the pool is not marked. *)
Theorem driver_says_bye_when_a_worker_exits
    (platforms : list Platform) (server : string) (port_ : Z)
    (device_list : list (nat * nat)) (world : nat -> Tick) (i k fuel : nat) :
  query_devices platforms = Ok device_list ->
  i < List.length device_list ->
  (forall j, j < k -> world j = Quiet) ->
  world k = WorkerExits i ->
  k < fuel ->
  exists p : OpenCLGAClient E,
    start_ocl_ga_client platforms server port_ world fuel = Some (SaidBye k p) /\
    is_alive p = false /\
    List.length (workerProcesses p) = List.length device_list /\
    pool_alive p = None /\
    (forall j dev,
       j <> i -> nth_error device_list j = Some dev ->
       nth_error (workerProcesses p) j
       = Some (started_worker (fst dev) (snd dev) server port_)) /\
    (forall dev,
       nth_error device_list i = Some dev ->
       nth_error (workerProcesses p) i
       = Some (set_process Finished (started_worker (fst dev) (snd dev) server port_))).
Proof.
  intros Hq Hi Hquiet Hexit Hfuel.
  unfold start_ocl_ga_client. rewrite (new_client_pool platforms server port_ _ Hq).
  set (ws := map (fun dev => started_worker (E:=E) (fst dev) (snd dev) server port_)
               device_list).
  assert (Hlen : List.length ws = List.length device_list) by apply length_map.
  assert (Hws : forall j dev, nth_error device_list j = Some dev ->
                  nth_error ws j = Some (started_worker (fst dev) (snd dev) server port_)).
  { intros j dev Hdev. unfold ws. rewrite nth_error_map, Hdev. reflexivity. }
  rewrite (poll_until_exit world {| workerProcesses := ws; pool_alive := None |} i
             (started_workers_run device_list server port_)
             ltac:(cbn [workerProcesses]; lia) k fuel 0
             ltac:(intros j Hj; apply Hquiet; lia) Hexit Hfuel).
  eexists. split; [reflexivity |]. cbn [workerProcesses set_workers pool_alive].
  split; [| split; [| split; [reflexivity | split]]].
  - rewrite is_alive_forallb. cbn [workerProcesses].
    apply exit_nth_not_alive. lia.
  - rewrite exit_nth_length. exact Hlen.
  - intros j dev Hne Hdev. rewrite (exit_nth_other ws i j Hne). apply Hws, Hdev.
  - intros dev Hdev. apply exit_nth_running; [apply Hws, Hdev | reflexivity].
Qed.

(** A keyboard interrupt in round [k], after quiet rounds, makes the
    driving loop shut the pool down instead of polling on: every worker is
    terminated once, in order, and the pool is left without workers and
    marked not alive. *)
Theorem driver_shuts_down_on_interrupt
    (platforms : list Platform) (server : string) (port_ : Z)
    (device_list : list (nat * nat)) (world : nat -> Tick) (k fuel : nat) :
  query_devices platforms = Ok device_list ->
  (forall j, j < k -> world j = Quiet) ->
  world k = KeyboardInterrupt ->
  k < fuel ->
  start_ocl_ga_client (E:=E) platforms server port_ world fuel =
    Some (Interrupted k
            ({| workerProcesses := []; pool_alive := Some false |},
             flat_map (fun dev => [Print (PStr "process is alive");
                                   ProcessTerminate (fst dev) (snd dev)]) device_list,
             Ok tt)).
Proof.
  intros Hq Hquiet Hint Hfuel.
  unfold start_ocl_ga_client. rewrite (new_client_pool platforms server port_ _ Hq).
  rewrite (poll_until_interrupt world
             {| workerProcesses :=
                  map (fun dev => started_worker (fst dev) (snd dev) server port_) device_list;
                pool_alive := None |}
             (started_workers_run device_list server port_) k fuel 0
             ltac:(intros j Hj; apply Hquiet; lia) Hint Hfuel).
  cbn [Nat.add]. do 2 f_equal.
  unfold shutdown, stop_workers. unfold bind at 1 2. unfold over_workers.
  cbn [workerProcesses].
  rewrite (terminate_all_trace _ (started_workers_are_handles device_list server port_)).
  cbn. rewrite !app_nil_r. f_equal. f_equal.
  clear. induction device_list as [| dev rest IH]; [reflexivity |].
  cbn [map flat_map]. rewrite IH. reflexivity.
Qed.

End Shutdown.

(** ** The further theorems on the scripted engine *)

Lemma control_commands_call_the_engine_once_witness :
  trace_of (process_data Stub.pause_msg Stub.ready) =
    [Log Verbose (cmd_received "gpu0" (PStr "pause")); EngineCall m_pause].
Proof.
  rewrite (proj1 (control_commands_call_the_engine_once
                    Stub.ready (Stub.prepared_engine Stub.good_options) Stub.gpu
                    ltac:(vm_compute; reflexivity) eq_refl)
             Stub.pause_msg PNone ltac:(vm_compute; reflexivity)).
  reflexivity.
Defined.

Lemma query_commands_answer_once_witness :
  sent (trace_of (process_data Stub.best_msg Stub.ready)) =
    [best_result (PList [PInt 0; PInt 1; PInt 2])].
Proof.
  rewrite (proj1 (proj2 (query_commands_answer_once
                    Stub.ready (Stub.prepared_engine Stub.good_options)
                    Stub.connection Stub.gpu
                    ltac:(vm_compute; reflexivity) eq_refl eq_refl))
             Stub.best_msg PNone ltac:(vm_compute; reflexivity)).
  reflexivity.
Defined.

Lemma run_before_prepare_starts_a_failing_thread_witness :
  run_ocl_ga Stub.probs (state_of (process_data Stub.run_msg Stub.idle)) =
    (set_ocl_ga_thread (Some Stub.probs) Stub.idle,
     [Log Info (oclga_run_with "gpu0" (PFloat "0.05") (PFloat "0.9"))],
     Raise (AttributeError "run")).
Proof.
  refine (proj2 (run_before_prepare_starts_a_failing_thread
                   Stub.idle Stub.gpu Stub.run_msg (PFloat "0.05") (PFloat "0.9") _ _ _)).
  - vm_compute. reflexivity.
  - reflexivity.
  - reflexivity.
Defined.

Lemma unusable_prepare_payload_builds_no_engine_witness :
  Stub.receive "{'command': 'prepare', 'data': b'no_sample'}" Stub.idle =
    (Stub.idle,
     [Log Verbose (cmd_received "gpu0" (PStr "prepare"));
      Traceback (KeyError "sample_chromosome")], Ok tt).
Proof.
  refine (unusable_prepare_payload_builds_no_engine (runtime := Stub.wide_runtime)
            Stub.idle Stub.gpu _ (PBytes (list_byte_of_string "no_sample"))
            (KeyError "sample_chromosome") _ _ _).
  - vm_compute. reflexivity.
  - reflexivity.
  - right. exists (PDict [(PStr "generations", PInt 3)]). split; vm_compute; reflexivity.
Defined.

Lemma prepare_installs_the_prepared_engine_witness :
  ocl_ga (state_of (process_data (Stub.prepare_msg "run_fails") Stub.ready)) =
    Some (Stub.prepared_engine Stub.failing_options).
Proof.
  rewrite (prepare_installs_the_prepared_engine
             (engine := Stub.engine) (runtime := Stub.runtime)
             Stub.ready Stub.gpu {| ctx_devices := [Stub.gpu] |}
             (Stub.prepare_msg "run_fails") (PBytes (list_byte_of_string "run_fails"))
             Stub.failing_options (PList [PInt 0; PInt 1; PInt 2])
             {| Stub.options_of := Stub.failing_options;
                Stub.prepared := false; Stub.paused := false |}
             ltac:(vm_compute; reflexivity) eq_refl ltac:(vm_compute; reflexivity)
             ltac:(vm_compute; reflexivity) ltac:(vm_compute; reflexivity)
             ltac:(vm_compute; reflexivity) ltac:(vm_compute; reflexivity)).
  reflexivity.
Defined.

Lemma nothing_is_sent_without_connection_witness :
  process_data Stub.best_msg (set_client None Stub.ready) =
    (set_client None Stub.ready,
     [Log Verbose (cmd_received "gpu0" (PStr "best")); EngineCall m_get_the_best],
     Ok tt).
Proof.
  rewrite (proj1 (proj2 (proj2 (proj2 (nothing_is_sent_without_connection
                    (engine := Stub.engine) (runtime := Stub.runtime)
                    (set_client None Stub.ready) eq_refl))
                    (Stub.prepared_engine Stub.good_options) Stub.gpu
                    ltac:(vm_compute; reflexivity) eq_refl))
             Stub.best_msg PNone ltac:(vm_compute; reflexivity)).
  vm_compute. reflexivity.
Defined.

Lemma run_waits_exactly_when_ready_witness :
  run Stub.host (started_worker 0 0 "127.0.0.1" 12345%Z) =
    (Stub.idle,
     [RandomSeed;
      MainLog Info (worker_created "gpu0");
      MainLog Info (worker_connects "gpu0" "127.0.0.1" 12345%Z);
      Handler (ClientSend (device_info "gpu0"));
      MainLog Info (worker_waits "gpu0");
      ConditionWait],
     Waiting).
Proof.
  apply (proj2 (run_waits_exactly_when_ready Stub.host _ _ _)).
  exists [Stub.gpu; Stub.gpu], Stub.gpu, {| ctx_devices := [Stub.gpu] |}, Stub.connection.
  repeat split.
Defined.

Lemma enumerated_pairs_name_devices_witness :
  exists dev,
    create_context Stub.host (started_worker (E:=Stub.GA) 1 0 "127.0.0.1" 12345%Z) =
      match cl_Context Stub.host [dev] with
      | inl e =>
          (set_device (Some dev) (started_worker 1 0 "127.0.0.1" 12345%Z), [], Raise e)
      | inr ctx =>
          (set_context (Some ctx)
             (set_device (Some dev) (started_worker 1 0 "127.0.0.1" 12345%Z)),
           [], Ok ctx)
      end.
Proof.
  refine (proj1 (enumerated_pairs_name_devices
                   Stub.host [(0, 0); (0, 1); (1, 0)] 1 0 "127.0.0.1" 12345%Z eq_refl) _).
  simpl. auto.
Defined.

Lemma new_client_starts_one_worker_per_device_witness :
  new_client (E:=Stub.GA) Stub.two_platforms "127.0.0.1" 12345%Z =
    Some ({| workerProcesses :=
               [started_worker 0 0 "127.0.0.1" 12345%Z;
                started_worker 0 1 "127.0.0.1" 12345%Z;
                started_worker 1 0 "127.0.0.1" 12345%Z];
             pool_alive := None |},
          [ProcessStart 0 0; ProcessStart 0 1; ProcessStart 1 0], Ok tt).
Proof.
  exact (proj1 (new_client_starts_one_worker_per_device
                  Stub.two_platforms "127.0.0.1" 12345%Z [(0, 0); (0, 1); (1, 0)] eq_refl)).
Defined.

Lemma shutdown_terminates_every_worker_once_witness :
  shutdown Stub.started_pool =
    ({| workerProcesses := []; pool_alive := Some false |},
     flat_map stop_trace (workerProcesses Stub.started_pool), Ok tt).
Proof.
  apply (proj1 (shutdown_terminates_every_worker_once Stub.started_pool
                  ltac:(repeat (constructor; [split; [discriminate | reflexivity] |]);
                        constructor))).
Defined.

Lemma driver_says_bye_when_a_worker_exits_witness :
  exists p : OpenCLGAClient Stub.GA,
    start_ocl_ga_client Stub.two_platforms "127.0.0.1" 12345%Z Stub.second_exits_in_round_two 10
    = Some (SaidBye 2 p) /\
    is_alive p = false /\
    List.length (workerProcesses p) = 3 /\
    pool_alive p = None /\
    (forall j dev,
       j <> 1 -> nth_error [(0, 0); (0, 1); (1, 0)] j = Some dev ->
       nth_error (workerProcesses p) j
       = Some (started_worker (fst dev) (snd dev) "127.0.0.1" 12345%Z)) /\
    (forall dev,
       nth_error [(0, 0); (0, 1); (1, 0)] 1 = Some dev ->
       nth_error (workerProcesses p) 1
       = Some (set_process Finished
                 (started_worker (fst dev) (snd dev) "127.0.0.1" 12345%Z))).
Proof.
  apply (driver_says_bye_when_a_worker_exits
           Stub.two_platforms "127.0.0.1" 12345%Z [(0, 0); (0, 1); (1, 0)]
           Stub.second_exits_in_round_two 1 2 10 eq_refl).
  - simpl. lia.
  - intros [| [| j]] Hj; [reflexivity | reflexivity | lia].
  - reflexivity.
  - lia.
Defined.

Lemma driver_shuts_down_on_interrupt_witness :
  start_ocl_ga_client (E:=Stub.GA) Stub.two_platforms "127.0.0.1" 12345%Z
    Stub.interrupt_in_round_two 10
  = Some (Interrupted 2
            ({| workerProcesses := []; pool_alive := Some false |},
             [Print (PStr "process is alive"); ProcessTerminate 0 0;
              Print (PStr "process is alive"); ProcessTerminate 0 1;
              Print (PStr "process is alive"); ProcessTerminate 1 0],
             Ok tt)).
Proof.
  apply (driver_shuts_down_on_interrupt
           Stub.two_platforms "127.0.0.1" 12345%Z [(0, 0); (0, 1); (1, 0)]
           Stub.interrupt_in_round_two 2 10 eq_refl).
  - intros [| [| j]] Hj; [reflexivity | reflexivity | lia].
  - reflexivity.
  - lia.
Defined.
